(** * Cryptoscan: the intraday scanner of [scanner_github.py]

    A shallow embedding of [run_scan] and of its helpers
    [try_fetch_funding_rate] and [send_email], and the properties of the
    candidate-evaluation pipeline (fetch, filter, score, report).

    Conventions of the embedding.
    - Python floats are exact rationals ([Q]) extended with [NaN]; rounding
      and infinities are not represented.
    - The pandas frame built at [df = pd.DataFrame(markets)] is the list of
      its rows together with the set of columns that exist.  A numeric cell
      is a number, [NaN] (the key is missing from that record, or a null in
      a numeric column) or [None] (a null in a column holding only nulls).
    - String building (HTML, f-strings) is kept structural: a reason, a
      subject and a body are constructors carrying the formatted values.
    - Logging, funding look-ups and send attempts are recorded as events, in
      program order, in a writer monad with exceptions.
    - The mail server is given by what each call of the SMTP dialogue does,
      and [MIMEText] by whether it can encode the text of a report. *)

From Stdlib Require Import ZArith QArith List Bool Ascii String Lia Lqa.
From Stdlib Require Import Sorting.Sorted Sorting.Permutation.
Import ListNotations.

Local Open Scope Z_scope.

(** ** Python values *)

(** A Python float. *)
Inductive pyfloat : Type :=
| Fin (q : Q)
| NaN.

(** [a >= b] on floats: false as soon as one side is [NaN]. *)
Definition f_ge (a b : pyfloat) : bool :=
  match a, b with
  | Fin x, Fin y => Qle_bool y x
  | _, _ => false
  end.

(** [a > b] on floats. *)
Definition f_gt (a b : pyfloat) : bool :=
  match a, b with
  | Fin x, Fin y => negb (Qle_bool x y)
  | _, _ => false
  end.

(** [a * b] on floats. *)
Definition f_mul (a b : pyfloat) : pyfloat :=
  match a, b with
  | Fin x, Fin y => Fin (x * y)
  | _, _ => NaN
  end.

(** A numeric cell of a row. *)
Inductive cell : Type :=
| Num (q : Q)
| CNaN
| CNone.

(** A text cell of a row ([id], [symbol], [name]). *)
Inductive tcell : Type :=
| TStr (s : string)
| TNaN
| TNone.

(** [float(c or 0)]: [None] and [0] are falsy, [NaN] is truthy. *)
Definition float_or_0 (c : cell) : pyfloat :=
  match c with
  | Num q => if Qeq_bool q 0 then Fin 0 else Fin q
  | CNaN => NaN
  | CNone => Fin 0
  end.

(** [Series.isna] on one cell. *)
Definition isna (c : cell) : bool :=
  match c with
  | Num _ => false
  | CNaN | CNone => true
  end.

(** ** Configuration (module-level constants read from the environment) *)

Record Config : Type := {
  RANK_MIN : Z;
  RANK_MAX : Z;
  MIN_1H_PCT : Q;
  MIN_24H_PCT : Q;
  VOLUME_MULTIPLIER : Q;
  SMTP_SERVER : string;
  SMTP_PORT : Z;
  SMTP_USER : string;
  SMTP_PASSWORD : string;
  EMAIL_RECIPIENT : string;
  SENDER_NAME : string
}.

(** The defaults of the script, with no mail account configured. *)
Definition default_config : Config := {|
  RANK_MIN := 40;
  RANK_MAX := 100;
  MIN_1H_PCT := 2;
  MIN_24H_PCT := 3;
  VOLUME_MULTIPLIER := 14 # 10;
  SMTP_SERVER := "smtp.gmail.com";
  SMTP_PORT := 587;
  SMTP_USER := EmptyString;
  SMTP_PASSWORD := EmptyString;
  EMAIL_RECIPIENT := EmptyString;
  SENDER_NAME := EmptyString
|}.

(** ** The frame of market records *)

(** One record of [/coins/markets], as a row of the frame. *)
Record row : Type := {
  r_id : tcell;
  r_symbol : tcell;
  r_name : tcell;
  market_cap_rank : option Z;          (* an integer; [None]: null or NaN *)
  current_price : cell;
  total_volume : cell;
  price_change_percentage_1h_in_currency : cell;
  price_change_percentage_24h : cell;
  price_change_percentage_24h_in_currency : cell;
  price_change_24h : cell
}.

(** Which columns the frame has.  A field of a [row] whose column does not
    exist is never read. *)
Record columns : Type := {
  has_id : bool;
  has_symbol : bool;
  has_name : bool;
  has_market_cap_rank : bool;
  has_current_price : bool;
  has_total_volume : bool;
  has_1h_in_currency : bool;
  has_pct_24h : bool;
  has_24h_in_currency : bool;
  has_price_change_24h : bool
}.

Record DataFrame : Type := {
  df_columns : columns;
  df_rows : list row
}.

(** *** Rank filter (lines 148-150) *)

(** [Series.between(lo, hi)] on one value, both ends included; a missing
    value compares false. *)
Definition between (lo hi : Z) (v : option Z) : bool :=
  match v with
  | Some z => (lo <=? z) && (z <=? hi)
  | None => false
  end.

(** [mask = df["market_cap_rank"].between(RANK_MIN, RANK_MAX)]. *)
Definition rank_mask (cfg : Config) (rows : list row) : list bool :=
  map (fun r => between (RANK_MIN cfg) (RANK_MAX cfg) (market_cap_rank r)) rows.

(** [df[mask]]: boolean indexing keeps the rows whose mask entry is true, in
    frame order. *)
Fixpoint bool_index {A : Type} (rows : list A) (mask : list bool) : list A :=
  match rows, mask with
  | r :: rows', b :: mask' =>
      if b then r :: bool_index rows' mask' else bool_index rows' mask'
  | _, _ => []
  end.

Definition rank_filter (cfg : Config) (rows : list row) : list row :=
  bool_index rows (rank_mask cfg rows).

(** *** Derived columns of the selection (lines 157-165) *)

(** A row of [sel] after the three column assignments. *)
Record srow : Type := {
  s_base : row;
  price_change_1h : cell;
  s_price_change_24h : cell;
  s_total_volume : cell
}.

(** [sel["price_change_1h"]], lines 157-160: the 1h column when the frame has
    it, otherwise the [price_change_percentage_24h] column, otherwise NaN;
    then NaN again when the 24h-in-currency column exists and the 1h one
    does not. *)
Definition col_price_change_1h (cols : columns) (r : row) : cell :=
  let v :=
    if has_1h_in_currency cols then price_change_percentage_1h_in_currency r
    else if has_pct_24h cols then price_change_percentage_24h r
    else CNaN in
  if has_24h_in_currency cols && negb (has_1h_in_currency cols) then CNaN
  else v.

(** [sel["price_change_24h"]], line 162. *)
Definition col_price_change_24h (cols : columns) (r : row) : cell :=
  if has_24h_in_currency cols then price_change_percentage_24h_in_currency r
  else if has_price_change_24h cols then price_change_24h r
  else CNaN.

(** [sel["total_volume"] = sel.get("total_volume", 0)], line 165. *)
Definition col_total_volume (cols : columns) (r : row) : cell :=
  if has_total_volume cols then total_volume r else Num 0.

Definition derive (cols : columns) (r : row) : srow := {|
  s_base := r;
  price_change_1h := col_price_change_1h cols r;
  s_price_change_24h := col_price_change_24h cols r;
  s_total_volume := col_total_volume cols r
|}.

(** *** Median volume (line 166) *)

(** The values of a numeric column that are present ([skipna]). *)
Fixpoint dropna (l : list cell) : list Q :=
  match l with
  | [] => []
  | Num q :: l' => q :: dropna l'
  | _ :: l' => dropna l'
  end.

Fixpoint q_insert (x : Q) (l : list Q) : list Q :=
  match l with
  | [] => [x]
  | y :: l' => if Qle_bool x y then x :: l else y :: q_insert x l'
  end.

Definition q_sort (l : list Q) : list Q := fold_right q_insert [] l.

(** [Series.median()]: NaN when nothing is present, else the middle of the
    sorted present values, or the mean of the two middle ones. *)
Definition series_median (col : list cell) : pyfloat :=
  let s := q_sort (dropna col) in
  let n := List.length s in
  match n with
  | O => NaN
  | _ =>
      if Nat.even n
      then Fin ((nth (n / 2 - 1)%nat s 0%Q + nth (n / 2)%nat s 0%Q) / 2)
      else Fin (nth (n / 2)%nat s 0%Q)
  end.

(** [median_vol = sel["total_volume"].median()
                  if not sel["total_volume"].isna().all() else 0]. *)
Definition median_vol (sel : list srow) : pyfloat :=
  let col := map s_total_volume sel in
  if forallb isna col then Fin 0 else series_median col.

(** ** Effects: exceptions and the event log *)

Inductive exn : Type :=
| HTTPError (detail : string)        (* raised by the fetch *)
| AttributeError
| ValueError
| TypeError
| ExchangeError (detail : string)    (* raised inside ccxt *)
| SMTPException (detail : string)    (* raised inside smtplib *)
| UnicodeEncodeError.                (* raised by MIMEText *)

Inductive outcome (A : Type) : Type :=
| Ok (a : A)
| Raise (e : exn).
Arguments Ok {A} a.
Arguments Raise {A} e.

(** Funding information returned by the exchange: a dict or [None]. *)
Inductive atom : Type :=
| ANone
| ANum (q : Q)
| AStr (s : string).

Definition fdict : Type := list (string * atom).

Inductive funding : Type :=
| FNone
| FDict (d : fdict).

(** A satisfied condition, with the values its text is formatted from. *)
Inductive reason : Type :=
| Reason1h (change : pyfloat) (threshold : Q)
| Reason24h (change : pyfloat) (threshold : Q)
| ReasonVol (vol : pyfloat) (multiplier : Q).

(** What the cell of the funding column shows. *)
Inductive funding_text : Type :=
| FrEmpty
| FrRate (a : atom)
| FrJson (d : fdict).

(** One [<tr>] of the report. *)
Record table_row : Type := {
  td_rank : Z;
  td_name : tcell;
  td_symbol : string;
  td_price : cell;
  td_1h : pyfloat;
  td_24h : pyfloat;
  td_vol : Z;
  td_reasons : list reason;
  td_funding : funding_text
}.

Inductive subject : Type :=
| SubjCandidates (n : nat)     (* "[Scanner] n candidate(s) found" *)
| SubjError.                   (* "[Scanner] ERROR" *)

Inductive body : Type :=
| BodyReport (rank_min rank_max : Z) (n : nat) (rows : list table_row)
| BodyCrash (e : exn).         (* the traceback of [e] *)

(** The diagnostic returned by [send_email] next to its success flag. *)
Inductive send_info : Type :=
| InfoNotConfigured            (* "SMTP/recipient not configured" *)
| InfoOk                       (* "ok" *)
| InfoError (e : exn).         (* [str(e)] *)

Inductive level : Type := DEBUG | INFO | WARNING | ERROR | EXCEPTION.

Inductive message : Type :=
| MsgStarting (rank_min rank_max : Z)
| MsgNoMarketData
| MsgMissingRank
| MsgNoCoinsInRange (rank_min rank_max : Z)
| MsgRowError (e : exn)
| MsgNoCandidates
| MsgFundingError (e : exn)
| MsgNotConfigured
| MsgEmailSent
| MsgSendFailed (e : exn)
| MsgEmailFailed (info : send_info)
| MsgReportEmailed
| MsgScanAborted (e : exn)
| MsgCrashEmailFailed (e : exn).

Inductive event : Type :=
| Log (lv : level) (m : message)
| FundingCall (exchange symbol : string)   (* ccxt is asked for a rate *)
| SendEmail (s : subject) (b : body)       (* [send_email] is called *)
| Delivered (s : subject) (b : body).      (* the SMTP session went through *)

(** A computation: its outcome and the events it emitted, oldest first. *)
Definition M (A : Type) : Type := (outcome A * list event)%type.

Definition ret {A : Type} (a : A) : M A := (Ok a, []).

Definition raise {A : Type} (e : exn) : M A := (Raise e, []).

Definition bind {A B : Type} (m : M A) (f : A -> M B) : M B :=
  match m with
  | (Ok a, l) => let (o, l') := f a in (o, l ++ l')
  | (Raise e, l) => (Raise e, l)
  end.

Definition emit (ev : event) : M unit := (Ok tt, [ev]).

Definition logging (lv : level) (m : message) : M unit := emit (Log lv m).

(** The result of a call into an external library. *)
Definition lift {A : Type} (o : outcome A) : M A := (o, []).

(** [try: m  except Exception as e: h e]. *)
Definition try_except {A : Type} (m : M A) (h : exn -> M A) : M A :=
  match m with
  | (Ok a, l) => (Ok a, l)
  | (Raise e, l) => let (o, l') := h e in (o, l ++ l')
  end.

Notation "x <- m ;; k" := (bind m (fun x => k))
  (at level 61, m at next level, right associativity).
Notation "m ;;; k" := (bind m (fun _ => k))
  (at level 61, right associativity).

Definition events {A : Type} (m : M A) : list event := snd m.
Definition result {A : Type} (m : M A) : outcome A := fst m.

(** ** External collaborators *)

(** An exchange object of ccxt: which of the three funding methods it has,
    and what each call does. *)
Record exchange : Type := {
  fetch_funding_rate : option (string -> outcome funding);
  fetchFundingRate : option (string -> outcome funding);
  fetchFundingRates : option (list string -> outcome (list funding))
}.

(** The ccxt module: [getattr(ccxt, name)()]. *)
Definition ccxt_module : Type := string -> outcome exchange.

(** What [fetch_coingecko_markets] returned: a JSON value that is not a list,
    or a list of records, seen as the frame built from it (no rows: the
    empty list). *)
Inductive markets : Type :=
| NotAList
| MarketList (df : DataFrame).

(** The mail handed to [sendmail]: the headers set at lines 108-110 and the
    HTML part. *)
Record mail : Type := {
  mail_subject : subject;
  mail_from : string;
  mail_to : string;
  mail_html : body
}.

(** The SMTP server: what each call of the dialogue of lines 116-123 does.
    [srv_connect] is [smtplib.SMTP(host, port, timeout)]; [srv_ehlo] is told
    whether TLS has been started. *)
Record smtp_server : Type := {
  srv_connect : string -> Z -> Z -> outcome unit;
  srv_ehlo : bool -> outcome unit;
  srv_starttls : outcome unit;
  srv_login : string -> string -> outcome unit;
  srv_sendmail : string -> list string -> mail -> outcome unit;
  srv_quit : outcome unit
}.

(** Everything outside the script for one run.  [ccxt = None] is
    [CCXT_AVAILABLE = False].  [mime_text] is what [MIMEText] does on the
    HTML of a report with these rows: it raises when the text of a row
    (a name or a symbol sent by the provider) cannot be encoded. *)
Record World : Type := {
  fetch_coingecko_markets : outcome markets;
  ccxt : option ccxt_module;
  mime_text : list table_row -> outcome unit;
  smtp : smtp_server
}.

(** ** Funding-rate lookup (lines 77-99) *)

Definition dict_get (d : fdict) (k : string) : atom :=
  match find (fun kv => String.eqb (fst kv) k) d with
  | Some kv => snd kv
  | None => ANone
  end.

Definition atom_is_str (a : atom) (s : string) : bool :=
  match a with
  | AStr t => String.eqb t s
  | _ => false
  end.

(** [for r in rates: if r.get("symbol") == symbol: return r] then
    [return None]. *)
Fixpoint find_rate (symbol : string) (rates : list funding) : M funding :=
  match rates with
  | [] => ret FNone
  | FNone :: _ => raise AttributeError
  | FDict d :: rest =>
      if atom_is_str (dict_get d "symbol") symbol then ret (FDict d)
      else find_rate symbol rest
  end.

Definition try_fetch_funding_rate
    (cc : option ccxt_module) (ccxt_exchange symbol : string) : M funding :=
  match cc with
  | None => ret FNone
  | Some module =>
      try_except
        (emit (FundingCall ccxt_exchange symbol) ;;;
         ex <- lift (module ccxt_exchange) ;;
         match fetch_funding_rate ex with
         | Some f => lift (f symbol)
         | None =>
             match fetchFundingRate ex with
             | Some f => lift (f symbol)
             | None =>
                 match fetchFundingRates ex with
                 | Some f => rates <- lift (f [symbol]) ;; find_rate symbol rates
                 | None => ret FNone
                 end
             end
         end)
        (fun e => logging DEBUG (MsgFundingError e) ;;; ret FNone)
  end.

(** Truthiness of a funding result: [if fr:]. *)
Definition fr_truthy (fr : funding) : bool :=
  match fr with
  | FNone => false
  | FDict [] => false
  | FDict (_ :: _) => true
  end.

(** ** Evaluation of one row (lines 172-214) *)

Record candidate : Type := {
  c_id : tcell;
  c_name : tcell;
  c_symbol : string;
  c_rank : Z;
  c_price : cell;
  c_vol : pyfloat;
  c_1h : pyfloat;
  c_24h : pyfloat;
  c_reasons : list reason;
  c_funding : funding
}.

Definition upper_ascii (c : ascii) : ascii :=
  let n := nat_of_ascii c in
  if ((97 <=? n) && (n <=? 122))%nat then ascii_of_nat (n - 32) else c.

(** [str.upper], on ASCII letters. *)
Fixpoint upper (s : string) : string :=
  match s with
  | EmptyString => EmptyString
  | String c s' => String (upper_ascii c) (upper s')
  end.

(** [row.get("symbol", default).upper()] with the empty string as default:
    a cell that is not a string has no [upper]. *)
Definition get_symbol (cols : columns) (r : row) : M string :=
  if has_symbol cols then
    match r_symbol r with
    | TStr s => ret (upper s)
    | TNaN | TNone => raise AttributeError
    end
  else ret (upper EmptyString).

(** [int(row.get("market_cap_rank", -1))]. *)
Definition get_rank (cols : columns) (r : row) : M Z :=
  if has_market_cap_rank cols then
    match market_cap_rank r with
    | Some z => ret z
    | None => raise ValueError
    end
  else ret (-1).

(** The three tests of lines 184-189, each appending its reason. *)
Definition reasons_of (cfg : Config) (median : pyfloat)
    (vol change_1h change_24h : pyfloat) : list reason :=
  let reasons := [] in
  let reasons :=
    if f_ge change_1h (Fin (MIN_1H_PCT cfg))
    then reasons ++ [Reason1h change_1h (MIN_1H_PCT cfg)] else reasons in
  let reasons :=
    if f_ge change_24h (Fin (MIN_24H_PCT cfg))
    then reasons ++ [Reason24h change_24h (MIN_24H_PCT cfg)] else reasons in
  let reasons :=
    if f_gt median (Fin 0)
       && f_ge vol (f_mul median (Fin (VOLUME_MULTIPLIER cfg)))
    then reasons ++ [ReasonVol vol (VOLUME_MULTIPLIER cfg)] else reasons in
  reasons.

(** [try_symbols], lines 198-200. *)
Definition try_symbols (symbol : string) : list string :=
  match symbol with
  | EmptyString => []
  | _ => [symbol ++ "/USDT"; symbol ++ "/USD"; symbol ++ "/USDT:USDT"]%string
  end.

(** The loop of lines 202-206. *)
Fixpoint funding_loop (cc : option ccxt_module) (symbols : list string)
    : M funding :=
  match symbols with
  | [] => ret FNone
  | s :: rest =>
      fr <- try_fetch_funding_rate cc "binance" s ;;
      if fr_truthy fr then ret fr else funding_loop cc rest
  end.

(** The body of the [try] of one iteration: [Some c] when the row was
    appended to [candidates]. *)
Definition process_row (cfg : Config) (cc : option ccxt_module)
    (cols : columns) (median : pyfloat) (r : srow) : M (option candidate) :=
  let coin_id := if has_id cols then r_id (s_base r) else TNone in
  symbol <- get_symbol cols (s_base r) ;;
  let name := if has_name cols then r_name (s_base r) else coin_id in
  rank <- get_rank cols (s_base r) ;;
  let price := if has_current_price cols then current_price (s_base r)
               else CNaN in
  let vol := float_or_0 (s_total_volume r) in
  let change_1h := float_or_0 (price_change_1h r) in
  let change_24h := float_or_0 (s_price_change_24h r) in
  let reasons := reasons_of cfg median vol change_1h change_24h in
  let signal := (2 <=? List.length reasons)%nat in
  funding_info <-
    match cc with
    | Some _ => funding_loop cc (try_symbols symbol)
    | None => ret FNone
    end ;;
  if signal then
    ret (Some {| c_id := coin_id; c_name := name; c_symbol := symbol;
                 c_rank := rank; c_price := price; c_vol := vol;
                 c_1h := change_1h; c_24h := change_24h;
                 c_reasons := reasons; c_funding := funding_info |})
  else ret None.

(** The loop of lines 170-217, started with the candidates found so far. *)
Fixpoint scan_rows (cfg : Config) (cc : option ccxt_module) (cols : columns)
    (median : pyfloat) (sel : list srow) (candidates : list candidate)
    : M (list candidate) :=
  match sel with
  | [] => ret candidates
  | r :: rest =>
      candidates' <-
        try_except
          (c <- process_row cfg cc cols median r ;;
           ret (match c with
                | Some c => candidates ++ [c]
                | None => candidates
                end))
          (fun e => logging EXCEPTION (MsgRowError e) ;;; ret candidates) ;;
      scan_rows cfg cc cols median rest candidates'
  end.

(** ** Report (lines 225-252) *)

Fixpoint insert_by_rank (c : candidate) (l : list candidate) : list candidate :=
  match l with
  | [] => [c]
  | d :: l' =>
      if c_rank c <=? c_rank d then c :: l else d :: insert_by_rank c l'
  end.

(** [sorted(candidates, key=lambda x: x["rank"])]: a stable sort on the
    rank. *)
Definition sorted_by_rank (l : list candidate) : list candidate :=
  fold_right insert_by_rank [] l.

Definition atom_truthy (a : atom) : bool :=
  match a with
  | ANone => false
  | ANum q => negb (Qeq_bool q 0)
  | AStr s => negb (String.eqb s EmptyString)
  end.

(** [a or b]. *)
Definition atom_or (a b : atom) : atom := if atom_truthy a then a else b.

(** [fr_str], lines 230-241. *)
Definition fr_str (fr : funding) : funding_text :=
  match fr with
  | FDict d =>
      let fr_rate :=
        atom_or (atom_or (dict_get d "fundingRate") (dict_get d "rate"))
                (dict_get d "funding_rate") in
      match fr_rate with
      | ANone => FrJson d
      | a => FrRate a
      end
  | FNone => FrEmpty
  end.

(** [int(x)] on a float: truncation, and [ValueError] on NaN. *)
Definition int_of_float (x : pyfloat) : M Z :=
  match x with
  | Fin q => ret (Z.quot (Qnum q) (Zpos (Qden q)))
  | NaN => raise ValueError
  end.

Definition render_row (c : candidate) : M table_row :=
  let fr := fr_str (c_funding c) in
  vol <- int_of_float (c_vol c) ;;
  ret {| td_rank := c_rank c; td_name := c_name c; td_symbol := c_symbol c;
         td_price := c_price c; td_1h := c_1h c; td_24h := c_24h c;
         td_vol := vol; td_reasons := c_reasons c; td_funding := fr |}.

(** The [for c in sorted(...)] loop, with the rows written so far. *)
Fixpoint render_loop (cs : list candidate) (html : list table_row)
    : M (list table_row) :=
  match cs with
  | [] => ret html
  | c :: rest => tr <- render_row c ;; render_loop rest (html ++ [tr])
  end.

Definition render_report (candidates : list candidate) : M (list table_row) :=
  render_loop (sorted_by_rank candidates) [].

(** ** Notification (lines 101-128) *)

Definition is_empty (s : string) : bool := String.eqb s EmptyString.

(** [MIMEText(html_body, "html")], line 112.  The body of a crash mail is a
    traceback, which is always encoded; the body of a report holds text of
    the provider. *)
Definition MIMEText (w : World) (b : body) : outcome unit :=
  match b with
  | BodyCrash _ => Ok tt
  | BodyReport _ _ _ rows => mime_text w rows
  end.

(** The message of lines 107-113. *)
Definition message_of (cfg : Config) (s : subject) (b : body) : mail := {|
  mail_subject := s;
  mail_from := (SENDER_NAME cfg ++ " <" ++ SMTP_USER cfg ++ ">")%string;
  mail_to := EMAIL_RECIPIENT cfg;
  mail_html := b
|}.

(** Lines 116-122: the dialogue up to and including [sendmail]. *)
Definition smtp_handover (cfg : Config) (w : World) (msg : mail) : M unit :=
  let server := smtp w in
  lift (srv_connect server (SMTP_SERVER cfg) (SMTP_PORT cfg) 30) ;;;
  lift (srv_ehlo server false) ;;;
  (if SMTP_PORT cfg =? 587
   then lift (srv_starttls server) ;;; lift (srv_ehlo server true)
   else ret tt) ;;;
  lift (srv_login server (SMTP_USER cfg) (SMTP_PASSWORD cfg)) ;;;
  lift (srv_sendmail server (SMTP_USER cfg) [EMAIL_RECIPIENT cfg] msg).

(** [send_email]: the configuration test, the message built outside the
    [try], then the dialogue inside it.  [Delivered] records that [sendmail]
    returned. *)
Definition send_email (cfg : Config) (w : World) (s : subject) (b : body)
    : M (bool * send_info) :=
  emit (SendEmail s b) ;;;
  if is_empty (SMTP_USER cfg) || is_empty (SMTP_PASSWORD cfg)
     || is_empty (EMAIL_RECIPIENT cfg)
  then logging WARNING MsgNotConfigured ;;; ret (false, InfoNotConfigured)
  else
    lift (MIMEText w b) ;;;
    let msg := message_of cfg s b in
    try_except
      (smtp_handover cfg w msg ;;;
       emit (Delivered s b) ;;;
       lift (srv_quit (smtp w)) ;;;
       logging INFO MsgEmailSent ;;;
       ret (true, InfoOk))
      (fun e => logging EXCEPTION (MsgSendFailed e) ;;; ret (false, InfoError e)).

(** ** The scan (lines 133-267) *)

(** The selection with its derived columns, and the candidate list. *)
Definition selection (cfg : Config) (df : DataFrame) : list srow :=
  map (derive (df_columns df)) (rank_filter cfg (df_rows df)).

Definition find_candidates (cfg : Config) (cc : option ccxt_module)
    (df : DataFrame) : M (list candidate) :=
  let sel := selection cfg df in
  scan_rows cfg cc (df_columns df) (median_vol sel) sel [].

(** Lines 225-259: the report of a non-empty candidate list is rendered and
    handed to [send_email]. *)
Definition send_report (cfg : Config) (w : World) (candidates : list candidate)
    : M unit :=
  html <- render_report candidates ;;
  let n := List.length candidates in
  sent <- send_email cfg w (SubjCandidates n)
            (BodyReport (RANK_MIN cfg) (RANK_MAX cfg) n html) ;;
  if negb (fst sent)
  then logging ERROR (MsgEmailFailed (snd sent))
  else logging INFO MsgReportEmailed.

(** The body of the outer [try]. *)
Definition scan_body (cfg : Config) (w : World) : M unit :=
  logging INFO (MsgStarting (RANK_MIN cfg) (RANK_MAX cfg)) ;;;
  mk <- lift (fetch_coingecko_markets w) ;;
  match mk with
  | NotAList => logging ERROR MsgNoMarketData
  | MarketList df =>
      match df_rows df with
      | [] => logging ERROR MsgNoMarketData
      | _ :: _ =>
          if negb (has_market_cap_rank (df_columns df))
          then logging ERROR MsgMissingRank
          else
            match rank_filter cfg (df_rows df) with
            | [] =>
                logging INFO (MsgNoCoinsInRange (RANK_MIN cfg) (RANK_MAX cfg))
            | _ :: _ =>
                candidates <- find_candidates cfg (ccxt w) df ;;
                match candidates with
                | [] => logging INFO MsgNoCandidates
                | _ :: _ => send_report cfg w candidates
                end
            end
      end
  end.

Definition run_scan (cfg : Config) (w : World) : M unit :=
  try_except (scan_body cfg w)
    (fun e =>
       logging EXCEPTION (MsgScanAborted e) ;;;
       try_except
         (send_email cfg w SubjError (BodyCrash e) ;;; ret tt)
         (fun e' => logging EXCEPTION (MsgCrashEmailFailed e'))).

(** An event is a notification attempt when it is a call of [send_email]. *)
Definition is_send (ev : event) : bool :=
  match ev with
  | SendEmail _ _ => true
  | _ => false
  end.

(** An event is a funding lookup when ccxt is asked for a rate. *)
Definition is_funding_call (ev : event) : bool :=
  match ev with
  | FundingCall _ _ => true
  | _ => false
  end.

(** ** Market data fetcher (lines 58-75) *)

Module Fetcher.

(** A value of the query string. *)
Inductive param : Type :=
| PStr (s : string)
| PInt (n : Z).

(** What the network and the clock see of one call. *)
Inductive net_event : Type :=
| Get (url : string) (params : list (string * param)) (timeout : Z)
| Sleep (seconds : Q).

(** An HTTP response: what [raise_for_status] and [json] do on it. *)
Record response : Type := {
  raise_for_status : outcome unit;
  json : outcome markets
}.

Definition COINGECKO_API : string := "https://api.coingecko.com/api/v3".

(** [rate_limit_sleep], for a given API_RATE_LIMIT_SECONDS. *)
Definition rate_limit_sleep (API_RATE_LIMIT_SECONDS : Q) : list net_event :=
  if negb (Qle_bool API_RATE_LIMIT_SECONDS 0)
  then [Sleep API_RATE_LIMIT_SECONDS]
  else [].

(** [fetch_coingecko_markets]: the outcome of the call and what it did, for
    a given [requests.get]. *)
Definition fetch_coingecko_markets (API_RATE_LIMIT_SECONDS : Q)
    (requests_get : string -> list (string * param) -> Z -> outcome response)
    (vs_currency : string) (per_page page : Z) (price_change_pct : string)
    : outcome markets * list net_event :=
  let url := (COINGECKO_API ++ "/coins/markets")%string in
  let params :=
    [("vs_currency"%string, PStr vs_currency);
     ("order"%string, PStr "market_cap_desc");
     ("per_page"%string, PInt per_page);
     ("page"%string, PInt page);
     ("price_change_percentage"%string, PStr price_change_pct)] in
  match requests_get url params 30 with
  | Raise e => (Raise e, [Get url params 30])
  | Ok resp =>
      match raise_for_status resp with
      | Raise e => (Raise e, [Get url params 30])
      | Ok _ =>
          (json resp,
           Get url params 30 :: rate_limit_sleep API_RATE_LIMIT_SECONDS)
      end
  end.

(** The call made by [run_scan], line 136: [per_page=TOP_N], the other
    arguments at their defaults. *)
Definition scan_fetch (API_RATE_LIMIT_SECONDS : Q) (TOP_N : Z)
    (requests_get : string -> list (string * param) -> Z -> outcome response)
    : outcome markets * list net_event :=
  fetch_coingecko_markets API_RATE_LIMIT_SECONDS requests_get "usd" TOP_N 1
    "1h,24h".

Definition is_sleep (ev : net_event) : bool :=
  match ev with
  | Sleep _ => true
  | Get _ _ _ => false
  end.

End Fetcher.

(** * Vocabulary of the properties *)

(** [l1] is [l2] with some elements removed, the others in the same order. *)
Inductive subseq {A : Type} : list A -> list A -> Prop :=
| subseq_nil : subseq [] []
| subseq_skip : forall x l1 l2, subseq l1 l2 -> subseq l1 (x :: l2)
| subseq_keep : forall x l1 l2, subseq l1 l2 -> subseq (x :: l1) (x :: l2).

(** The rank of [r] lies in the closed rank window. *)
Definition in_window (cfg : Config) (r : row) : Prop :=
  exists z, market_cap_rank r = Some z /\ RANK_MIN cfg <= z <= RANK_MAX cfg.

(** What one row contributes when it is evaluated on its own. *)
Definition row_candidates (cfg : Config) (cc : option ccxt_module)
    (cols : columns) (median : pyfloat) (r : srow)
    : list candidate :=
  match result (process_row cfg cc cols median r) with
  | Ok (Some c) => [c]
  | _ => []
  end.

(** What one iteration writes to the log: the events of the evaluation,
    then the logged exception when it faulted. *)
Definition row_events (cfg : Config) (cc : option ccxt_module)
    (cols : columns) (median : pyfloat) (r : srow)
    : list event :=
  events (process_row cfg cc cols median r) ++
  match result (process_row cfg cc cols median r) with
  | Raise e => [Log EXCEPTION (MsgRowError e)]
  | Ok _ => []
  end.

(** The evaluation of [r] raises. *)
Definition faults (cfg : Config) (cc : option ccxt_module)
    (cols : columns) (median : pyfloat) (r : srow)
    : bool :=
  match result (process_row cfg cc cols median r) with
  | Raise _ => true
  | Ok _ => false
  end.

(** What one lookup hands back to the loop. *)
Definition fetched (cc : option ccxt_module) (s : string) : funding :=
  match result (try_fetch_funding_rate cc "binance" s) with
  | Ok v => v
  | Raise _ => FNone
  end.

(** The guesses that are tried: each one up to and including the first whose
    lookup succeeds. *)
Fixpoint attempted (cc : option ccxt_module) (symbols : list string)
    : list string :=
  match symbols with
  | [] => []
  | s :: rest => s :: (if fr_truthy (fetched cc s) then [] else attempted cc rest)
  end.

(** The result of the first successful lookup, [None] when there is none. *)
Fixpoint first_success (cc : option ccxt_module) (symbols : list string)
    : funding :=
  match symbols with
  | [] => FNone
  | s :: rest =>
      if fr_truthy (fetched cc s) then fetched cc s else first_success cc rest
  end.

(** The three conditions of a row, on the values the loop reads. *)
Definition cond_1h (cfg : Config) (r : srow) : bool :=
  f_ge (float_or_0 (price_change_1h r)) (Fin (MIN_1H_PCT cfg)).

Definition cond_24h (cfg : Config) (r : srow) : bool :=
  f_ge (float_or_0 (s_price_change_24h r)) (Fin (MIN_24H_PCT cfg)).

Definition cond_vol (cfg : Config) (median : pyfloat) (r : srow) : bool :=
  f_gt median (Fin 0)
  && f_ge (float_or_0 (s_total_volume r))
          (f_mul median (Fin (VOLUME_MULTIPLIER cfg))).

(** How many conditions of a list hold. *)
Definition count_true (l : list bool) : nat :=
  List.length (filter (fun b => b) l).

(** The candidate record of lines 209-214. *)
Definition candidate_of (cfg : Config) (cols : columns) (median : pyfloat)
    (r : srow) (symbol : string) (rank : Z) (funding_info : funding)
    : candidate :=
  let coin_id := if has_id cols then r_id (s_base r) else TNone in
  {| c_id := coin_id;
     c_name := if has_name cols then r_name (s_base r) else coin_id;
     c_symbol := symbol;
     c_rank := rank;
     c_price := if has_current_price cols then current_price (s_base r)
                else CNaN;
     c_vol := float_or_0 (s_total_volume r);
     c_1h := float_or_0 (price_change_1h r);
     c_24h := float_or_0 (s_price_change_24h r);
     c_reasons := reasons_of cfg median (float_or_0 (s_total_volume r))
                    (float_or_0 (price_change_1h r))
                    (float_or_0 (s_price_change_24h r));
     c_funding := funding_info |}.

(** A candidate without its funding annotation. *)
Definition without_funding (c : candidate) : candidate :=
  {| c_id := c_id c; c_name := c_name c; c_symbol := c_symbol c;
     c_rank := c_rank c; c_price := c_price c; c_vol := c_vol c;
     c_1h := c_1h c; c_24h := c_24h c; c_reasons := c_reasons c;
     c_funding := FNone |}.

(** Sample data: a frame with every column. *)
Definition all_columns : columns := {|
  has_id := true; has_symbol := true; has_name := true;
  has_market_cap_rank := true; has_current_price := true;
  has_total_volume := true; has_1h_in_currency := true;
  has_pct_24h := true; has_24h_in_currency := true;
  has_price_change_24h := true
|}.

(** A record of rank [rank] with the given symbol cell, volume and the two
    in-currency changes. *)
Definition sample_row (sym : tcell) (rank : Z) (vol ch1h ch24h : cell) : row := {|
  r_id := TStr "coin"; r_symbol := sym; r_name := TStr "Coin";
  market_cap_rank := Some rank;
  current_price := Num 1;
  total_volume := vol;
  price_change_percentage_1h_in_currency := ch1h;
  price_change_percentage_24h := ch24h;
  price_change_percentage_24h_in_currency := ch24h;
  price_change_24h := Num 0
|}.

(** A frame from a provider answer without the in-currency change columns. *)
Definition legacy_columns : columns := {|
  has_id := true; has_symbol := true; has_name := true;
  has_market_cap_rank := true; has_current_price := true;
  has_total_volume := true; has_1h_in_currency := false;
  has_pct_24h := true; has_24h_in_currency := false;
  has_price_change_24h := true
|}.

(** The guesses tried for one row: none without ccxt or when the row faults
    on its symbol or rank, otherwise the tried guesses of its symbol. *)
Definition row_lookups (cc : option ccxt_module) (cols : columns) (r : srow)
    : list string :=
  match cc, result (get_symbol cols (s_base r)),
        result (get_rank cols (s_base r)) with
  | Some _, Ok sym, Ok _ => attempted cc (try_symbols sym)
  | _, _, _ => []
  end.

(** The funding annotation a candidate of symbol [sym] gets. *)
Definition funding_of (cc : option ccxt_module) (sym : string) : funding :=
  match cc with
  | Some _ => first_success cc (try_symbols sym)
  | None => FNone
  end.

(** An exchange whose unified method answers every symbol. *)
Definition sample_exchange : exchange := {|
  fetch_funding_rate :=
    Some (fun _ => Ok (FDict [("fundingRate"%string, ANum (1 # 10000))]));
  fetchFundingRate := None;
  fetchFundingRates := None
|}.

Definition sample_ccxt : ccxt_module := fun _ => Ok sample_exchange.

(** The defaults with a mail account. *)
Definition mail_config : Config := {|
  RANK_MIN := 40;
  RANK_MAX := 100;
  MIN_1H_PCT := 2;
  MIN_24H_PCT := 3;
  VOLUME_MULTIPLIER := 14 # 10;
  SMTP_SERVER := "smtp.gmail.com";
  SMTP_PORT := 587;
  SMTP_USER := "scanner@example.org";
  SMTP_PASSWORD := "secret";
  EMAIL_RECIPIENT := "ops@example.org";
  SENDER_NAME := "scanner@example.org"
|}.

(** A mail server that accepts everything. *)
Definition accepting_server : smtp_server := {|
  srv_connect := fun _ _ _ => Ok tt;
  srv_ehlo := fun _ => Ok tt;
  srv_starttls := Ok tt;
  srv_login := fun _ _ => Ok tt;
  srv_sendmail := fun _ _ _ => Ok tt;
  srv_quit := Ok tt
|}.

(** A world without ccxt, where every report can be encoded and the mail
    server accepts everything. *)
Definition quiet_world (answer : outcome markets) : World := {|
  fetch_coingecko_markets := answer;
  ccxt := None;
  mime_text := fun _ => Ok tt;
  smtp := accepting_server
|}.

(** The events a row evaluation can emit. *)
Definition is_row_event (ev : event) : bool :=
  match ev with
  | FundingCall _ _ => true
  | Log DEBUG (MsgFundingError _) => true
  | Log EXCEPTION (MsgRowError _) => true
  | _ => false
  end.

(** The same world with another answer of the provider. *)
Definition with_answer (w : World) (answer : outcome markets) : World := {|
  fetch_coingecko_markets := answer;
  ccxt := ccxt w;
  mime_text := mime_text w;
  smtp := smtp w
|}.

(** Ranks never go down along the list. *)
Definition rank_ascending (l : list candidate) : Prop :=
  Sorted Z.le (map c_rank l).

(** How many values are at most, and at least, [m]. *)
Definition count_le (m : Q) (l : list Q) : nat :=
  List.length (filter (fun x => Qle_bool x m) l).

Definition count_ge (m : Q) (l : list Q) : nat :=
  List.length (filter (fun x => Qle_bool m x) l).

(** [m] is a median of [l]: at least half of the values are at most [m] and
    at least half are at least [m]. *)
Definition is_median (m : Q) (l : list Q) : Prop :=
  (List.length l <= 2 * count_le m l)%nat
  /\ (List.length l <= 2 * count_ge m l)%nat.

(** What the dialogue does up to and including [sendmail]: the fault of its
    first failing call, if any. *)
Definition smtp_session (cfg : Config) (w : World) (s : subject) (b : body)
    : outcome unit :=
  result (smtp_handover cfg w (message_of cfg s b)).

(** The three mail settings are all set. *)
Definition configured (cfg : Config) : bool :=
  negb (is_empty (SMTP_USER cfg) || is_empty (SMTP_PASSWORD cfg)
        || is_empty (EMAIL_RECIPIENT cfg)).

(** The last line of a report delivery. *)
Definition delivery_line (sent : bool * send_info) : event :=
  if fst sent then Log INFO MsgReportEmailed
  else Log ERROR (MsgEmailFailed (snd sent)).

(** The mail of a report: its subject and body for the rendered rows. *)
Definition report_subject (candidates : list candidate) : subject :=
  SubjCandidates (List.length candidates).

Definition report_body (cfg : Config) (candidates : list candidate)
    (rows : list table_row) : body :=
  BodyReport (RANK_MIN cfg) (RANK_MAX cfg) (List.length candidates) rows.

(** The candidate of a sample record of symbol BTC, rank 55, volume 200 and a
    1-hour change of 2.5 against a median volume of 100. *)
Definition sample_candidate : candidate :=
  candidate_of default_config all_columns (Fin 100)
    (derive all_columns (sample_row (TStr "btc") 55 (Num 200) (Num (5 # 2)) (Num 1)))
    "BTC" 55 FNone.

(** The defaults with the two rank bounds exchanged. *)
Definition inverted_config : Config := {|
  RANK_MIN := 100;
  RANK_MAX := 40;
  MIN_1H_PCT := 2;
  MIN_24H_PCT := 3;
  VOLUME_MULTIPLIER := 14 # 10;
  SMTP_SERVER := "smtp.gmail.com";
  SMTP_PORT := 587;
  SMTP_USER := EmptyString;
  SMTP_PASSWORD := EmptyString;
  EMAIL_RECIPIENT := EmptyString;
  SENDER_NAME := EmptyString
|}.

(** The entries of a [fetchFundingRates] answer read before a match for
    [symbol] is found are dicts of another symbol. *)
Definition other_symbol (symbol : string) (r : funding) : Prop :=
  exists d, r = FDict d /\ atom_is_str (dict_get d "symbol") symbol = false.

(** The URL and the query of a markets call. *)
Definition markets_url : string :=
  (Fetcher.COINGECKO_API ++ "/coins/markets")%string.

Definition markets_params (vs_currency : string) (per_page page : Z)
    (price_change_pct : string) : list (string * Fetcher.param) :=
  [("vs_currency"%string, Fetcher.PStr vs_currency);
   ("order"%string, Fetcher.PStr "market_cap_desc");
   ("per_page"%string, Fetcher.PInt per_page);
   ("page"%string, Fetcher.PInt page);
   ("price_change_percentage"%string, Fetcher.PStr price_change_pct)].

(** A [requests.get] that always answers with the same response. *)
Definition constant_get (resp : Fetcher.response)
    : string -> list (string * Fetcher.param) -> Z -> outcome Fetcher.response :=
  fun _ _ _ => Ok resp.

(** An event is a hand-over when [sendmail] returned. *)
Definition is_delivered (ev : event) : bool :=
  match ev with
  | Delivered _ _ => true
  | _ => false
  end.






(** * Properties *)

(** ** Generic facts on the monad *)

Lemma bind_ok {A B : Type} (m : M A) (f : A -> M B) (a : A) (l : list event) :
  m = (Ok a, l) ->
  bind m f = (result (f a), l ++ events (f a)).
Proof.
  intros ->. unfold bind, result, events. destruct (f a); reflexivity.
Qed.

Lemma surjective_M {A : Type} (m : M A) : m = (result m, events m).
Proof. destruct m; reflexivity. Qed.

(** ** Rank window *)

Lemma between_spec (lo hi : Z) (v : option Z) :
  between lo hi v = true <-> exists z, v = Some z /\ lo <= z <= hi.
Proof.
  unfold between. destruct v as [z|].
  - rewrite andb_true_iff, !Z.leb_le. split.
    + intros H. exists z. auto.
    + intros (z' & E & H). inversion E; subst. exact H.
  - split; [discriminate | intros (z & E & _); discriminate].
Qed.

Lemma rank_filter_cons (cfg : Config) (r : row) (rows : list row) :
  rank_filter cfg (r :: rows) =
  if between (RANK_MIN cfg) (RANK_MAX cfg) (market_cap_rank r)
  then r :: rank_filter cfg rows else rank_filter cfg rows.
Proof. reflexivity. Qed.

Lemma rank_filter_app (cfg : Config) (l1 l2 : list row) :
  rank_filter cfg (l1 ++ l2) = rank_filter cfg l1 ++ rank_filter cfg l2.
Proof.
  induction l1 as [|r l1 IH]; [reflexivity|].
  rewrite <- app_comm_cons, !rank_filter_cons, IH.
  destruct (between _ _ _); reflexivity.
Qed.

Lemma rank_filter_In (cfg : Config) (rows : list row) (r : row) :
  In r (rank_filter cfg rows) <-> In r rows /\ in_window cfg r.
Proof.
  unfold in_window. induction rows as [|x rows IH].
  - simpl. tauto.
  - rewrite rank_filter_cons.
    destruct (between _ _ (market_cap_rank x)) eqn:B; simpl; rewrite IH.
    + apply between_spec in B. split.
      * intros [->|[H1 H2]]; auto.
      * intros [[->|H1] H2]; auto.
    + split.
      * intros [H1 H2]; auto.
      * intros [[->|H1] H2]; auto.
        apply between_spec in H2. congruence.
Qed.

Lemma rank_filter_subseq (cfg : Config) (rows : list row) :
  subseq (rank_filter cfg rows) rows.
Proof.
  induction rows as [|x rows IH]; [constructor|].
  rewrite rank_filter_cons. destruct (between _ _ _); constructor; exact IH.
Qed.

Lemma rank_filter_count (cfg : Config) (p : row -> bool) (rows : list row) :
  (List.length (filter p (rank_filter cfg rows)) <= List.length (filter p rows))%nat
  /\ ((forall r, p r = true -> in_window cfg r) ->
      filter p (rank_filter cfg rows) = filter p rows).
Proof.
  induction rows as [|x rows [IH1 IH2]]; [split; reflexivity|].
  rewrite rank_filter_cons. split.
  - destruct (between _ _ _); simpl; destruct (p x); simpl; lia.
  - intros Hp. specialize (IH2 Hp).
    destruct (between _ _ (market_cap_rank x)) eqn:B; simpl.
    + destruct (p x); congruence.
    + destruct (p x) eqn:Px; [|exact IH2].
      apply Hp, between_spec in Px. congruence.
Qed.

(** C6. The rank filter keeps exactly the rows whose rank lies in the closed
    interval [RANK_MIN, RANK_MAX], both ends included: a row is selected iff
    it is a row of the frame with its rank in the window; the selection is
    the frame with rows removed, in frame order, so that no row and no
    duplicate is introduced; and of any class of rows the selection has at
    most as many as the frame, and exactly as many when the class lies inside
    the window. *)
Theorem rank_filter_closed_interval (cfg : Config) (rows : list row) :
  (forall r, In r (rank_filter cfg rows) <-> In r rows /\ in_window cfg r)
  /\ subseq (rank_filter cfg rows) rows
  /\ (forall p : row -> bool,
        (List.length (filter p (rank_filter cfg rows))
         <= List.length (filter p rows))%nat)
  /\ (forall p : row -> bool,
        (forall r, p r = true -> in_window cfg r) ->
        filter p (rank_filter cfg rows) = filter p rows).
Proof.
  split; [|split; [|split]].
  - intros r. apply rank_filter_In.
  - apply rank_filter_subseq.
  - intros p. apply rank_filter_count.
  - intros p. apply rank_filter_count.
Qed.

(** ** Per-row isolation of faults *)

Section Rows.
Variable cfg : Config.
Variable cc : option ccxt_module.
Variable cols : columns.
Variable median : pyfloat.

Lemma scan_rows_cons (r : srow) (rest : list srow) (acc : list candidate) :
  scan_rows cfg cc cols median (r :: rest) acc =
  (result (scan_rows cfg cc cols median rest
             (acc ++ row_candidates cfg cc cols median r)),
   row_events cfg cc cols median r
   ++ events (scan_rows cfg cc cols median rest
                (acc ++ row_candidates cfg cc cols median r))).
Proof.
  unfold row_candidates, row_events. cbn [scan_rows].
  destruct (process_row cfg cc cols median r) as [[[c|]|e] l];
    cbn [bind try_except ret logging emit result events fst snd];
    rewrite ?app_nil_r;
    match goal with
    | |- context [scan_rows cfg cc cols median rest ?a] =>
        destruct (scan_rows cfg cc cols median rest a) as [o l']
    end; cbn [fst snd]; rewrite <- ?app_assoc; reflexivity.
Qed.

Lemma scan_rows_spec (sel : list srow) (acc : list candidate) :
  scan_rows cfg cc cols median sel acc =
  (Ok (acc ++ flat_map (row_candidates cfg cc cols median) sel),
   flat_map (row_events cfg cc cols median) sel).
Proof.
  revert acc. induction sel as [|r rest IH]; intros acc.
  - cbn. rewrite app_nil_r. reflexivity.
  - rewrite scan_rows_cons, IH. cbn [result events fst snd flat_map].
    rewrite <- app_assoc. reflexivity.
Qed.

Lemma row_candidates_faulting (r : srow) :
  faults cfg cc cols median r = true ->
  row_candidates cfg cc cols median r = [].
Proof.
  unfold faults, row_candidates.
  destruct (result (process_row cfg cc cols median r)); [discriminate|reflexivity].
Qed.

Lemma flat_map_non_faulting (sel : list srow) :
  flat_map (row_candidates cfg cc cols median)
    (filter (fun r => negb (faults cfg cc cols median r)) sel) =
  flat_map (row_candidates cfg cc cols median) sel.
Proof.
  induction sel as [|r rest IH]; [reflexivity|].
  cbn [filter flat_map]. destruct (faults cfg cc cols median r) eqn:F; cbn [negb flat_map].
  - rewrite (row_candidates_faulting r F). exact IH.
  - rewrite IH. reflexivity.
Qed.

Lemma row_fault_logged (sel : list srow) (r : srow) (e : exn) :
  In r sel -> result (process_row cfg cc cols median r) = Raise e ->
  In (Log EXCEPTION (MsgRowError e))
     (flat_map (row_events cfg cc cols median) sel).
Proof.
  intros Hin Hr. apply in_flat_map. exists r. split; [exact Hin|].
  unfold row_events. rewrite Hr. apply in_or_app. right. left. reflexivity.
Qed.

(** C8. A fault raised while one row is evaluated is caught and logged, and
    the other rows are evaluated all the same: the loop never raises; its
    candidate list is the concatenation, in row order, of what each row
    yields when evaluated on its own, a faulting row yielding nothing; it
    is the list the loop computes on the non-faulting rows alone; the log
    is the concatenation of the rows' logs; and the exception of every
    faulting row is in the log. *)
Theorem scan_rows_isolates_faults (sel : list srow) :
  result (scan_rows cfg cc cols median sel [])
  = Ok (flat_map (row_candidates cfg cc cols median) sel)
  /\ result (scan_rows cfg cc cols median sel []) =
     result (scan_rows cfg cc cols median
               (filter (fun r => negb (faults cfg cc cols median r)) sel) [])
  /\ events (scan_rows cfg cc cols median sel [])
     = flat_map (row_events cfg cc cols median) sel
  /\ (forall r e, In r sel ->
        result (process_row cfg cc cols median r) = Raise e ->
        In (Log EXCEPTION (MsgRowError e))
           (events (scan_rows cfg cc cols median sel []))).
Proof.
  rewrite !scan_rows_spec. cbn [result events fst snd app].
  split; [reflexivity|]. split; [|split; [reflexivity|]].
  - rewrite flat_map_non_faulting. reflexivity.
  - intros r e. apply row_fault_logged.
Qed.

End Rows.

(** ** Funding lookup *)

Lemma find_rate_events (symbol : string) (rates : list funding) :
  events (find_rate symbol rates) = [].
Proof.
  induction rates as [|[|d] rest IH]; cbn; try reflexivity.
  destruct (atom_is_str _ _); [reflexivity | exact IH].
Qed.

(** A lookup never raises, and asks ccxt exactly once when ccxt is there. *)
Lemma try_fetch_funding_rate_spec (cc : option ccxt_module) (ex s : string) :
  (exists v, result (try_fetch_funding_rate cc ex s) = Ok v)
  /\ filter is_funding_call (events (try_fetch_funding_rate cc ex s)) =
     match cc with
     | Some _ => [FundingCall ex s]
     | None => []
     end.
Proof.
  unfold try_fetch_funding_rate. destruct cc as [m|]; [|split; [eexists|]; reflexivity].
  cbn [bind emit lift]. destruct (m ex) as [x|e]; cbn.
  2: split; [eexists|]; reflexivity.
  destruct (fetch_funding_rate x) as [f|].
  { destruct (f s); cbn; split; try eexists; reflexivity. }
  destruct (fetchFundingRate x) as [f|].
  { destruct (f s); cbn; split; try eexists; reflexivity. }
  destruct (fetchFundingRates x) as [f|]; [|cbn; split; [eexists|]; reflexivity].
  destruct (f [s]) as [rates|e]; cbn; [|split; [eexists|]; reflexivity].
  pose proof (find_rate_events s rates) as Hev. unfold events in Hev.
  destruct (find_rate s rates) as [[v|e] l]; cbn in *; subst l; cbn;
    split; try eexists; reflexivity.
Qed.

Lemma try_fetch_funding_rate_fetched (cc : option ccxt_module) (s : string) :
  result (try_fetch_funding_rate cc "binance" s) = Ok (fetched cc s).
Proof.
  unfold fetched.
  destruct (try_fetch_funding_rate_spec cc "binance" s) as [[v ->] _].
  reflexivity.
Qed.

Lemma funding_loop_spec (cc : option ccxt_module) (symbols : list string) :
  funding_loop cc symbols =
  (Ok (first_success cc symbols),
   flat_map (fun s => events (try_fetch_funding_rate cc "binance" s))
            (attempted cc symbols)).
Proof.
  induction symbols as [|s rest IH]; [reflexivity|].
  cbn [funding_loop attempted first_success flat_map].
  rewrite (bind_ok _ _ (fetched cc s)
             (events (try_fetch_funding_rate cc "binance" s))).
  2: { rewrite <- try_fetch_funding_rate_fetched. apply surjective_M. }
  destruct (fr_truthy (fetched cc s)).
  - cbn. reflexivity.
  - rewrite IH. cbn. reflexivity.
Qed.

Lemma funding_loop_calls (m : ccxt_module) (symbols : list string) :
  filter is_funding_call (events (funding_loop (Some m) symbols)) =
  map (FundingCall "binance") (attempted (Some m) symbols).
Proof.
  rewrite funding_loop_spec. cbn [events snd].
  induction (attempted (Some m) symbols) as [|s l IH]; [reflexivity|].
  cbn [flat_map map]. rewrite filter_app, IH.
  destruct (try_fetch_funding_rate_spec (Some m) "binance" s) as [_ ->].
  reflexivity.
Qed.

(** The tried guesses are an initial segment of the list of guesses: no
    guess before the last tried one succeeded, and when a guess is left
    untried the last tried one succeeded. *)
Lemma attempted_prefix (cc : option ccxt_module) (symbols : list string) :
  exists rest,
    symbols = attempted cc symbols ++ rest
    /\ (forall s, In s (removelast (attempted cc symbols)) ->
          fr_truthy (fetched cc s) = false)
    /\ (rest <> [] ->
          fr_truthy (fetched cc (last (attempted cc symbols) EmptyString)) = true).
Proof.
  induction symbols as [|s l (rest & E & Hfail & Hlast)].
  - exists []. split; [reflexivity|]. split; [intros s []|intros H; congruence].
  - cbn [attempted]. destruct (fr_truthy (fetched cc s)) eqn:T.
    + exists l. split; [reflexivity|]. split; [intros x []|]. intros _. exact T.
    + exists rest. split; [cbn; congruence|]. split.
      * destruct (attempted cc l) as [|a l'] eqn:A.
        -- intros x [].
        -- intros x Hx. change (In x (s :: removelast (a :: l'))) in Hx.
           destruct Hx as [<-|Hx]; [exact T | apply Hfail, Hx].
      * intros Hrest. destruct (attempted cc l) as [|a l'] eqn:A.
        -- destruct l; [cbn in E; congruence | discriminate A].
        -- change (fr_truthy (fetched cc (last (a :: l') EmptyString)) = true).
           apply Hlast, Hrest.
Qed.

(** ** The quorum of one row *)

Lemma reasons_of_length (cfg : Config) (median : pyfloat) (r : srow) :
  List.length (reasons_of cfg median (float_or_0 (s_total_volume r))
                 (float_or_0 (price_change_1h r))
                 (float_or_0 (s_price_change_24h r)))
  = count_true [cond_1h cfg r; cond_24h cfg r; cond_vol cfg median r].
Proof.
  unfold reasons_of, cond_1h, cond_24h, cond_vol, count_true.
  destruct (f_ge (float_or_0 (price_change_1h r)) _);
    destruct (f_ge (float_or_0 (s_price_change_24h r)) _);
    destruct (f_gt median (Fin 0) && _); reflexivity.
Qed.

Lemma count_true_perm (l l' : list bool) :
  Permutation l l' -> count_true l = count_true l'.
Proof.
  unfold count_true. induction 1 as [|x l l' _ IH|x y l|l l' l'' _ IH1 _ IH2].
  - reflexivity.
  - cbn. destruct x; cbn; congruence.
  - cbn. destruct x, y; reflexivity.
  - congruence.
Qed.

Lemma get_symbol_cases (cols : columns) (r : row) :
  (exists s, get_symbol cols r = ret s)
  \/ get_symbol cols r = raise AttributeError.
Proof.
  unfold get_symbol. destruct (has_symbol cols); [|left; eexists; reflexivity].
  destruct (r_symbol r); [left; eexists; reflexivity | right; reflexivity ..].
Qed.

Lemma get_rank_cases (cols : columns) (r : row) :
  (exists z, get_rank cols r = ret z) \/ get_rank cols r = raise ValueError.
Proof.
  unfold get_rank. destruct (has_market_cap_rank cols); [|left; eexists; reflexivity].
  destruct (market_cap_rank r); [left; eexists; reflexivity | right; reflexivity].
Qed.

(** The evaluation of a row whose symbol and rank can be read: no fault, the
    events of the lookup loop, and a candidate exactly on a quorum. *)
Lemma process_row_eval (cfg : Config) (cc : option ccxt_module)
    (cols : columns) (median : pyfloat) (r : srow) (sym : string) (rk : Z) :
  get_symbol cols (s_base r) = ret sym ->
  get_rank cols (s_base r) = ret rk ->
  process_row cfg cc cols median r =
  (Ok (if (2 <=? count_true [cond_1h cfg r; cond_24h cfg r;
                             cond_vol cfg median r])%nat
       then Some (candidate_of cfg cols median r sym rk
                    (match cc with
                     | Some _ => first_success cc (try_symbols sym)
                     | None => FNone
                     end))
       else None),
   match cc with
   | Some _ => events (funding_loop cc (try_symbols sym))
   | None => []
   end).
Proof.
  intros Hs Hr. unfold process_row. rewrite Hs, Hr.
  cbn [bind ret]. rewrite reasons_of_length.
  destruct cc as [m|].
  - rewrite funding_loop_spec. cbn [events snd].
    destruct (2 <=? _)%nat; cbn; rewrite ?app_nil_r; reflexivity.
  - destruct (2 <=? _)%nat; reflexivity.
Qed.

(** A row whose symbol or rank cannot be read faults before anything else
    happens. *)
Lemma process_row_fault (cfg : Config) (cc : option ccxt_module)
    (cols : columns) (median : pyfloat) (r : srow) :
  (exists sym rk, get_symbol cols (s_base r) = ret sym
                  /\ get_rank cols (s_base r) = ret rk)
  \/ (exists e, process_row cfg cc cols median r = (Raise e, [])).
Proof.
  destruct (get_symbol_cases cols (s_base r)) as [[s Hs]|Hs].
  - destruct (get_rank_cases cols (s_base r)) as [[z Hz]|Hz].
    + left. exists s, z. auto.
    + right. exists ValueError. unfold process_row. rewrite Hs, Hz. reflexivity.
  - right. exists AttributeError. unfold process_row. rewrite Hs. reflexivity.
Qed.

(** C1 (amended). For every row whose evaluation raises no fault, the row
    becomes a candidate iff at least 2 of the 3 conditions (1h change >=
    MIN_1H_PCT, 24h change >= MIN_24H_PCT, volume >= median * multiplier)
    hold; the volume condition is false whenever the median is not positive;
    the count, hence the outcome, is the same in whatever order the
    conditions are taken; and over the 8 truth combinations the quorum is
    the majority of the three. *)
Theorem candidate_iff_quorum (cfg : Config) (cc : option ccxt_module)
    (cols : columns) (median : pyfloat) (r : srow) :
  faults cfg cc cols median r = false ->
  ((exists c, row_candidates cfg cc cols median r = [c])
   <-> (2 <= count_true [cond_1h cfg r; cond_24h cfg r;
                         cond_vol cfg median r])%nat)
  /\ (f_gt median (Fin 0) = false -> cond_vol cfg median r = false)
  /\ (forall conds,
        Permutation conds [cond_1h cfg r; cond_24h cfg r; cond_vol cfg median r] ->
        count_true conds =
        count_true [cond_1h cfg r; cond_24h cfg r; cond_vol cfg median r])
  /\ (forall b1 b2 b3 : bool,
        (2 <=? count_true [b1; b2; b3])%nat
        = (b1 && b2 || b1 && b3 || b2 && b3)).
Proof.
  intros Hf. split; [|split; [|split]].
  - unfold faults in Hf. unfold row_candidates.
    destruct (process_row_fault cfg cc cols median r)
      as [(sym & rk & Hs & Hr)|[e He]].
    + rewrite (process_row_eval cfg cc cols median r sym rk Hs Hr).
      cbn [result fst].
      destruct (2 <=? _)%nat eqn:Q.
      * apply Nat.leb_le in Q. split; [intros _; exact Q|]. intros _.
        eexists. reflexivity.
      * apply Nat.leb_gt in Q. split; [intros [c Hc]; discriminate | lia].
    + rewrite He in Hf. discriminate.
  - unfold cond_vol. intros ->. reflexivity.
  - intros conds. apply count_true_perm.
  - intros [] [] []; reflexivity.
Qed.

Lemma candidate_iff_quorum_witness :
  faults default_config None all_columns (Fin 100)
    (derive all_columns (sample_row (TStr "btc") 55 (Num 200) (Num (5 # 2)) (Num 1)))
  = false
  /\ exists c,
       row_candidates default_config None all_columns (Fin 100)
         (derive all_columns
            (sample_row (TStr "btc") 55 (Num 200) (Num (5 # 2)) (Num 1)))
       = [c].
Proof.
  split; [reflexivity|].
  apply (candidate_iff_quorum default_config None all_columns (Fin 100)
           (derive all_columns
              (sample_row (TStr "btc") 55 (Num 200) (Num (5 # 2)) (Num 1)))
           eq_refl).
  vm_compute. lia.
Defined.

(** C1 as stated fails on a selected row whose symbol is null: with the
    default thresholds its 1h and 24h conditions both hold, yet the fault of
    [.upper()] on [None] is caught, the row is skipped and the scan ends
    with no candidate. *)
Lemma faulting_row_meets_quorum_but_is_no_candidate :
  In (sample_row TNone 55 (Num 200) (Num 5) (Num 5))
     (rank_filter default_config [sample_row TNone 55 (Num 200) (Num 5) (Num 5)])
  /\ cond_1h default_config
       (derive all_columns (sample_row TNone 55 (Num 200) (Num 5) (Num 5))) = true
  /\ cond_24h default_config
       (derive all_columns (sample_row TNone 55 (Num 200) (Num 5) (Num 5))) = true
  /\ find_candidates default_config None
       {| df_columns := all_columns;
          df_rows := [sample_row TNone 55 (Num 200) (Num 5) (Num 5)] |}
     = (Ok [], [Log EXCEPTION (MsgRowError AttributeError)]).
Proof.
  split; [left; reflexivity|]. repeat split; reflexivity.
Qed.

(** ** A missing 1-hour change *)

Lemma Qle_bool_false_of_lt (q : Q) : (0 < q)%Q -> Qle_bool q 0 = false.
Proof.
  intros H. destruct (Qle_bool q 0) eqn:E; [|reflexivity].
  apply Qle_bool_iff in E. exfalso. exact (Qlt_not_le _ _ H E).
Qed.

(** C2 (amended). For a row whose 1-hour change is unavailable (the frame has
    no 1h column, or the cell is NaN or None): when the frame has neither the
    1h nor the 24h in-currency column but has [price_change_percentage_24h],
    the row's 24-hour percentage is taken as its 1-hour change; in every
    other case the row fails the 1-hour condition as soon as MIN_1H_PCT is
    positive; and a None cell is scored as 0, so that the 1-hour condition
    then holds exactly when MIN_1H_PCT <= 0. *)
Theorem missing_1h_change (cfg : Config) (cols : columns) (r : row) :
  has_1h_in_currency cols = false
  \/ isna (price_change_percentage_1h_in_currency r) = true ->
  (has_1h_in_currency cols = false -> has_24h_in_currency cols = false ->
   has_pct_24h cols = true ->
   price_change_1h (derive cols r) = price_change_percentage_24h r)
  /\ (has_1h_in_currency cols = true \/ has_24h_in_currency cols = true
      \/ has_pct_24h cols = false ->
      (0 < MIN_1H_PCT cfg)%Q -> cond_1h cfg (derive cols r) = false)
  /\ (price_change_1h (derive cols r) = CNone ->
      float_or_0 (price_change_1h (derive cols r)) = Fin 0
      /\ (cond_1h cfg (derive cols r) = true <-> (MIN_1H_PCT cfg <= 0)%Q)).
Proof.
  intros Hna. unfold cond_1h.
  cbn [derive price_change_1h]. unfold col_price_change_1h.
  split; [|split].
  - intros -> -> ->. reflexivity.
  - intros Hcase Hpos. pose proof (Qle_bool_false_of_lt _ Hpos) as Hle.
    destruct (has_1h_in_currency cols) eqn:H1.
    + destruct Hna as [Hna|Hna]; [discriminate|].
      rewrite andb_false_r.
      destruct (price_change_percentage_1h_in_currency r);
        [discriminate | reflexivity | exact Hle].
    + destruct (has_24h_in_currency cols) eqn:H24; [reflexivity|].
      destruct Hcase as [Hc|[Hc|Hc]]; try discriminate.
      rewrite Hc. reflexivity.
  - intros ->. split; [reflexivity|]. cbn. apply Qle_bool_iff.
Qed.

Lemma missing_1h_change_witness :
  isna (price_change_percentage_1h_in_currency
          (sample_row (TStr "btc") 55 (Num 200) CNaN (Num 5))) = true
  /\ cond_1h default_config
       (derive all_columns (sample_row (TStr "btc") 55 (Num 200) CNaN (Num 5)))
     = false.
Proof.
  split; [reflexivity|].
  apply (missing_1h_change default_config all_columns
           (sample_row (TStr "btc") 55 (Num 200) CNaN (Num 5))
           (or_intror eq_refl)).
  - left. reflexivity.
  - reflexivity.
Defined.

(** C2 as stated fails on a frame that lacks both in-currency columns: the
    first row has no 1-hour value, MIN_1H_PCT = 2 is positive, and still the
    row satisfies the 1-hour condition, because its 24-hour percentage (5)
    was put in place of the missing 1-hour change; the scan reports it as a
    candidate with 5 as its 1-hour change and the 1-hour reason. *)
Lemma missing_1h_replaced_by_24h :
  has_1h_in_currency legacy_columns = false
  /\ (0 < MIN_1H_PCT default_config)%Q
  /\ price_change_percentage_24h
       (sample_row (TStr "btc") 55 (Num 200) CNaN (Num 5)) = Num 5
  /\ cond_1h default_config
       (derive legacy_columns
          (sample_row (TStr "btc") 55 (Num 200) CNaN (Num 5))) = true
  /\ match
       result
         (find_candidates default_config None
            {| df_columns := legacy_columns;
               df_rows := [sample_row (TStr "btc") 55 (Num 200) CNaN (Num 5);
                           sample_row (TStr "eth") 60 (Num 0) CNaN (Num 0)] |})
     with
     | Ok cands =>
         map c_symbol cands = ["BTC"%string]
         /\ map c_1h cands = [Fin 5]
         /\ map c_reasons cands
            = [[Reason1h (Fin 5) 2; ReasonVol (Fin 200) (14 # 10)]]
     | Raise _ => False
     end.
Proof.
  repeat split; reflexivity.
Qed.

(** ** Funding lookups of a scan *)

Lemma process_row_calls (cfg : Config) (cc : option ccxt_module)
    (cols : columns) (median : pyfloat) (r : srow) :
  filter is_funding_call (events (process_row cfg cc cols median r)) =
  map (FundingCall "binance") (row_lookups cc cols r).
Proof.
  unfold row_lookups.
  destruct (process_row_fault cfg cc cols median r)
    as [(sym & rk & Hs & Hr)|[e He]].
  - rewrite (process_row_eval cfg cc cols median r sym rk Hs Hr), Hs, Hr.
    cbn [events result fst snd ret].
    destruct cc as [m|]; [apply funding_loop_calls | reflexivity].
  - rewrite He. cbn [events snd filter].
    destruct (get_symbol_cases cols (s_base r)) as [[s Hs]|Hs].
    + destruct (get_rank_cases cols (s_base r)) as [[z Hz]|Hz].
      * rewrite (process_row_eval cfg cc cols median r s z Hs Hz) in He.
        discriminate.
      * rewrite Hs, Hz. destruct cc; reflexivity.
    + rewrite Hs. destruct cc; reflexivity.
Qed.

Lemma row_events_calls (cfg : Config) (cc : option ccxt_module)
    (cols : columns) (median : pyfloat) (sel : list srow) :
  filter is_funding_call (flat_map (row_events cfg cc cols median) sel) =
  map (FundingCall "binance") (flat_map (row_lookups cc cols) sel).
Proof.
  induction sel as [|r rest IH]; [reflexivity|].
  cbn [flat_map]. rewrite filter_app, map_app, IH. f_equal.
  unfold row_events. rewrite filter_app, process_row_calls.
  destruct (result (process_row cfg cc cols median r)); cbn;
    rewrite app_nil_r; reflexivity.
Qed.

Lemma row_candidates_funding (cfg : Config) (cc : option ccxt_module)
    (cols : columns) (median : pyfloat) (r : srow) (c : candidate) :
  In c (row_candidates cfg cc cols median r) ->
  c_funding c = funding_of cc (c_symbol c).
Proof.
  unfold row_candidates.
  destruct (process_row_fault cfg cc cols median r)
    as [(sym & rk & Hs & Hr)|[e He]].
  - rewrite (process_row_eval cfg cc cols median r sym rk Hs Hr).
    cbn [result fst]. destruct (2 <=? _)%nat; [|intros []].
    intros [<-|[]]. reflexivity.
  - rewrite He. intros [].
Qed.

Lemma row_candidates_any_ccxt (cfg : Config) (cc cc' : option ccxt_module)
    (cols : columns) (median : pyfloat) (r : srow) :
  map without_funding (row_candidates cfg cc cols median r) =
  map without_funding (row_candidates cfg cc' cols median r).
Proof.
  unfold row_candidates.
  destruct (get_symbol_cases cols (s_base r)) as [[s Hs]|Hs].
  - destruct (get_rank_cases cols (s_base r)) as [[z Hz]|Hz].
    + rewrite !(process_row_eval cfg _ cols median r s z Hs Hz).
      cbn [result fst]. destruct (2 <=? _)%nat; reflexivity.
    + unfold process_row. rewrite Hs, Hz. reflexivity.
  - unfold process_row. rewrite Hs. reflexivity.
Qed.

(** C3 (amended). The funding lookup is attempted for every selected row that
    is evaluated without fault, candidate or not: the lookups of a scan are,
    row after row, the tried guesses of each row's symbol.  The guesses of a
    symbol are SYMBOL/USDT, SYMBOL/USD, SYMBOL/USDT:USDT, tried in this order
    up to the first success.  No lookup aborts the scan; a candidate carries
    the first successful result, and no funding data when every lookup
    failed or ccxt is absent; and whatever ccxt does, the candidates are the
    same up to that annotation. *)
Theorem funding_lookup_best_effort (cfg : Config) (cc cc' : option ccxt_module)
    (df : DataFrame) :
  (exists cands, result (find_candidates cfg cc df) = Ok cands
     /\ (forall c, In c cands -> c_funding c = funding_of cc (c_symbol c))
     /\ (exists cands', result (find_candidates cfg cc' df) = Ok cands'
           /\ map without_funding cands = map without_funding cands'))
  /\ filter is_funding_call (events (find_candidates cfg cc df)) =
     map (FundingCall "binance")
         (flat_map (row_lookups cc (df_columns df)) (selection cfg df))
  /\ (forall sym, sym <> EmptyString ->
        try_symbols sym
        = [sym ++ "/USDT"; sym ++ "/USD"; sym ++ "/USDT:USDT"]%string)
  /\ (forall sym, exists rest,
        try_symbols sym = attempted cc (try_symbols sym) ++ rest
        /\ (forall s, In s (removelast (attempted cc (try_symbols sym))) ->
              fr_truthy (fetched cc s) = false)
        /\ (rest <> [] ->
              fr_truthy (fetched cc (last (attempted cc (try_symbols sym))
                                          EmptyString)) = true))
  /\ (forall sym, sym <> EmptyString ->
        exists rest,
          attempted cc (try_symbols sym) = (sym ++ "/USDT")%string :: rest)
  /\ funding_of None = (fun _ => FNone)
  /\ (forall sym,
        (forall s, In s (try_symbols sym) -> fr_truthy (fetched cc s) = false) ->
        funding_of cc sym = FNone).
Proof.
  unfold find_candidates. rewrite !scan_rows_spec.
  cbn [result events fst snd app].
  split; [|split; [|split; [|split; [|split; [|split]]]]].
  - eexists. split; [reflexivity|]. split.
    + intros c Hc. apply in_flat_map in Hc. destruct Hc as (r & _ & Hc).
      apply (row_candidates_funding _ _ _ _ _ _ Hc).
    + eexists. split; [reflexivity|].
      generalize (median_vol (selection cfg df)). intros median.
      induction (selection cfg df) as [|r rest IH]; [reflexivity|].
      cbn [flat_map]. rewrite !map_app, IH.
      f_equal. apply row_candidates_any_ccxt.
  - apply row_events_calls.
  - intros [|a s] H; [congruence | reflexivity].
  - intros sym. apply attempted_prefix.
  - intros [|a s] H; [congruence|]. cbn [try_symbols attempted]. eexists.
    reflexivity.
  - reflexivity.
  - intros sym Hall. unfold funding_of. destruct cc as [m|]; [|reflexivity].
    induction (try_symbols sym) as [|s l IH]; [reflexivity|].
    cbn [first_success]. rewrite (Hall s (or_introl eq_refl)).
    apply IH. intros x Hx. apply Hall. right. exact Hx.
Qed.

(** C3 as stated fails on a row that is no candidate: with ccxt present, a
    selected row meeting none of the three conditions still has its funding
    rate looked up. *)
Lemma lookup_attempted_for_non_candidate :
  count_true
    [cond_1h default_config
       (derive all_columns (sample_row (TStr "btc") 55 (Num 200) (Num 0) (Num 0)));
     cond_24h default_config
       (derive all_columns (sample_row (TStr "btc") 55 (Num 200) (Num 0) (Num 0)));
     cond_vol default_config (Fin 200)
       (derive all_columns (sample_row (TStr "btc") 55 (Num 200) (Num 0) (Num 0)))]
  = 0%nat
  /\ find_candidates default_config (Some sample_ccxt)
       {| df_columns := all_columns;
          df_rows := [sample_row (TStr "btc") 55 (Num 200) (Num 0) (Num 0)] |}
     = (Ok [], [FundingCall "binance" "BTC/USDT"]).
Proof.
  split; reflexivity.
Qed.

(** ** Notification and the outer handler *)

(** The dialogue up to [sendmail] logs nothing; its outcome is
    [smtp_session]. *)
Lemma smtp_handover_session (cfg : Config) (w : World) (s : subject) (b : body) :
  smtp_handover cfg w (message_of cfg s b) = (smtp_session cfg w s b, []).
Proof.
  unfold smtp_session, smtp_handover. cbn [lift bind].
  destruct (srv_connect (smtp w) (SMTP_SERVER cfg) (SMTP_PORT cfg) 30);
    [|reflexivity].
  destruct (srv_ehlo (smtp w) false); [|reflexivity].
  destruct (SMTP_PORT cfg =? 587).
  - cbn [lift bind]. destruct (srv_starttls (smtp w)); [|reflexivity].
    destruct (srv_ehlo (smtp w) true); [|reflexivity].
    destruct (srv_login (smtp w) (SMTP_USER cfg) (SMTP_PASSWORD cfg));
      [|reflexivity].
    destruct (srv_sendmail (smtp w) (SMTP_USER cfg) [EMAIL_RECIPIENT cfg]
                (message_of cfg s b)); reflexivity.
  - cbn [ret lift bind].
    destruct (srv_login (smtp w) (SMTP_USER cfg) (SMTP_PASSWORD cfg));
      [|reflexivity].
    destruct (srv_sendmail (smtp w) (SMTP_USER cfg) [EMAIL_RECIPIENT cfg]
                (message_of cfg s b)); reflexivity.
Qed.

(** The five ways of a call of [send_email]. *)
Lemma send_email_cases (cfg : Config) (w : World) (s : subject) (b : body) :
  send_email cfg w s b =
  if is_empty (SMTP_USER cfg) || is_empty (SMTP_PASSWORD cfg)
     || is_empty (EMAIL_RECIPIENT cfg)
  then (Ok (false, InfoNotConfigured),
        [SendEmail s b; Log WARNING MsgNotConfigured])
  else
    match MIMEText w b with
    | Raise e => (Raise e, [SendEmail s b])
    | Ok _ =>
        match smtp_session cfg w s b with
        | Raise e =>
            (Ok (false, InfoError e),
             [SendEmail s b; Log EXCEPTION (MsgSendFailed e)])
        | Ok _ =>
            match srv_quit (smtp w) with
            | Raise e =>
                (Ok (false, InfoError e),
                 [SendEmail s b; Delivered s b;
                  Log EXCEPTION (MsgSendFailed e)])
            | Ok _ =>
                (Ok (true, InfoOk),
                 [SendEmail s b; Delivered s b; Log INFO MsgEmailSent])
            end
        end
    end.
Proof.
  unfold send_email.
  destruct (is_empty (SMTP_USER cfg) || is_empty (SMTP_PASSWORD cfg)
            || is_empty (EMAIL_RECIPIENT cfg)); [reflexivity|].
  destruct (MIMEText w b) as [[]|e]; [|reflexivity].
  cbn [lift bind emit]. cbn zeta. rewrite smtp_handover_session.
  destruct (smtp_session cfg w s b) as [[]|e]; [|reflexivity].
  destruct (srv_quit (smtp w)) as [[]|e]; reflexivity.
Qed.

(** When the message can be built, [send_email] does not raise and starts by
    recording the attempt. *)
Lemma send_email_spec (cfg : Config) (w : World) (s : subject) (b : body) :
  MIMEText w b = Ok tt ->
  exists ok info l,
    send_email cfg w s b = (Ok (ok, info), SendEmail s b :: l)
    /\ (is_empty (SMTP_USER cfg) || is_empty (SMTP_PASSWORD cfg)
        || is_empty (EMAIL_RECIPIENT cfg) = true ->
        ok = false /\ info = InfoNotConfigured
        /\ l = [Log WARNING MsgNotConfigured])
    /\ (forall e, smtp_session cfg w s b = Raise e ->
        ok = false
        /\ (l = [Log WARNING MsgNotConfigured]
            \/ l = [Log EXCEPTION (MsgSendFailed e)]))
    /\ (forall e, smtp_session cfg w s b = Ok tt ->
        srv_quit (smtp w) = Raise e ->
        ok = false
        /\ (l = [Log WARNING MsgNotConfigured]
            \/ l = [Delivered s b; Log EXCEPTION (MsgSendFailed e)])).
Proof.
  intros Hm. rewrite send_email_cases, Hm.
  destruct (is_empty (SMTP_USER cfg) || is_empty (SMTP_PASSWORD cfg)
            || is_empty (EMAIL_RECIPIENT cfg)) eqn:C.
  - exists false, InfoNotConfigured, [Log WARNING MsgNotConfigured].
    split; [reflexivity|]. split; [auto|]. split; intros; auto.
  - destruct (smtp_session cfg w s b) as [[]|e] eqn:S.
    + destruct (srv_quit (smtp w)) as [[]|e] eqn:Q.
      * exists true, InfoOk, [Delivered s b; Log INFO MsgEmailSent].
        split; [reflexivity|]. split; [discriminate|].
        split; intros; discriminate.
      * exists false, (InfoError e), [Delivered s b; Log EXCEPTION (MsgSendFailed e)].
        split; [reflexivity|]. split; [discriminate|].
        split; [intros; discriminate|].
        intros e' _ He'. injection He' as <-. auto.
    + exists false, (InfoError e), [Log EXCEPTION (MsgSendFailed e)].
      split; [reflexivity|]. split; [discriminate|].
      split; [|intros; discriminate].
      intros e' He'. injection He' as <-. auto.
Qed.

(** The outer handler: what [run_scan] does once its body raised [e]. *)
Lemma run_scan_handler (cfg : Config) (w : World) (e : exn) (l : list event) :
  scan_body cfg w = (Raise e, l) ->
  run_scan cfg w =
  (Ok tt, l ++ Log EXCEPTION (MsgScanAborted e)
            :: events (send_email cfg w SubjError (BodyCrash e))).
Proof.
  intros Hb. unfold run_scan. rewrite Hb. cbn beta iota delta [try_except].
  destruct (send_email_spec cfg w SubjError (BodyCrash e) eq_refl)
    as (ok & info & l' & -> & _).
  cbn. rewrite ?app_nil_r. reflexivity.
Qed.

(** [run_scan] returns normally whatever happens. *)
Lemma run_scan_completes (cfg : Config) (w : World) :
  result (run_scan cfg w) = Ok tt.
Proof.
  destruct (scan_body cfg w) as [[[]|e] l] eqn:Hb.
  - unfold run_scan. rewrite Hb. reflexivity.
  - rewrite (run_scan_handler cfg w e l Hb). reflexivity.
Qed.

(** ** Fatal faults of a run *)

(** C4 (amended). When the fetch raises, no row is evaluated: the run logs the
    abort, attempts one crash notification carrying the fault, and returns
    normally, also when the notifier is not configured or the send fails.
    When the provider's answer is not a list, is an empty list, or is a list
    of records without any rank, the run logs an error and returns without
    evaluating a row and without attempting any notification.  In all cases
    the run completes without raising. *)
Theorem fetch_failure_is_fatal (cfg : Config) (w : World) :
  (forall e, fetch_coingecko_markets w = Raise e ->
     run_scan cfg w =
     (Ok tt,
      Log INFO (MsgStarting (RANK_MIN cfg) (RANK_MAX cfg))
      :: Log EXCEPTION (MsgScanAborted e)
      :: events (send_email cfg w SubjError (BodyCrash e)))
     /\ exists ok info l,
          send_email cfg w SubjError (BodyCrash e)
          = (Ok (ok, info), SendEmail SubjError (BodyCrash e) :: l)
          /\ (is_empty (SMTP_USER cfg) || is_empty (SMTP_PASSWORD cfg)
              || is_empty (EMAIL_RECIPIENT cfg) = true ->
              ok = false /\ info = InfoNotConfigured
              /\ l = [Log WARNING MsgNotConfigured])
          /\ (forall e', smtp_session cfg w SubjError (BodyCrash e) = Raise e' ->
              ok = false
              /\ (l = [Log WARNING MsgNotConfigured]
                  \/ l = [Log EXCEPTION (MsgSendFailed e')]))
          /\ (forall e', smtp_session cfg w SubjError (BodyCrash e) = Ok tt ->
              srv_quit (smtp w) = Raise e' ->
              ok = false
              /\ (l = [Log WARNING MsgNotConfigured]
                  \/ l = [Delivered SubjError (BodyCrash e);
                          Log EXCEPTION (MsgSendFailed e')])))
  /\ (fetch_coingecko_markets w = Ok NotAList ->
      run_scan cfg w =
      (Ok tt, [Log INFO (MsgStarting (RANK_MIN cfg) (RANK_MAX cfg));
               Log ERROR MsgNoMarketData]))
  /\ (forall df, fetch_coingecko_markets w = Ok (MarketList df) ->
      df_rows df = [] ->
      run_scan cfg w =
      (Ok tt, [Log INFO (MsgStarting (RANK_MIN cfg) (RANK_MAX cfg));
               Log ERROR MsgNoMarketData]))
  /\ (forall df, fetch_coingecko_markets w = Ok (MarketList df) ->
      df_rows df <> [] -> has_market_cap_rank (df_columns df) = false ->
      run_scan cfg w =
      (Ok tt, [Log INFO (MsgStarting (RANK_MIN cfg) (RANK_MAX cfg));
               Log ERROR MsgMissingRank]))
  /\ result (run_scan cfg w) = Ok tt.
Proof.
  split; [|split; [|split; [|split]]].
  - intros e He. split; [|apply send_email_spec; reflexivity].
    apply (run_scan_handler cfg w e
             [Log INFO (MsgStarting (RANK_MIN cfg) (RANK_MAX cfg))]).
    unfold scan_body. rewrite He. reflexivity.
  - intros H. unfold run_scan, scan_body. rewrite H. reflexivity.
  - intros df H Hrows. unfold run_scan, scan_body. rewrite H.
    cbn [lift bind logging emit]. rewrite Hrows. reflexivity.
  - intros df H Hrows Hcol. unfold run_scan, scan_body. rewrite H.
    cbn [lift bind logging emit]. destruct (df_rows df); [congruence|].
    rewrite Hcol. reflexivity.
  - apply run_scan_completes.
Qed.

Lemma fetch_failure_is_fatal_witness :
  run_scan default_config (quiet_world (Raise (HTTPError "429"))) =
  (Ok tt,
   [Log INFO (MsgStarting 40 100);
    Log EXCEPTION (MsgScanAborted (HTTPError "429"));
    SendEmail SubjError (BodyCrash (HTTPError "429"));
    Log WARNING MsgNotConfigured]).
Proof.
  apply (fetch_failure_is_fatal default_config
           (quiet_world (Raise (HTTPError "429")))).
  reflexivity.
Defined.

(** C4 as stated fails when the provider answers with an empty list or with
    something that is not a list: the run only logs an error, and attempts no
    crash notification although a mail account is configured. *)
Lemma empty_answer_sends_no_crash_notification :
  run_scan mail_config
    (quiet_world (Ok (MarketList {| df_columns := all_columns; df_rows := [] |})))
  = (Ok tt, [Log INFO (MsgStarting 40 100); Log ERROR MsgNoMarketData])
  /\ run_scan mail_config (quiet_world (Ok NotAList))
     = (Ok tt, [Log INFO (MsgStarting 40 100); Log ERROR MsgNoMarketData])
  /\ filter is_send
       (events (run_scan mail_config (quiet_world (Ok NotAList)))) = [].
Proof.
  repeat split; reflexivity.
Qed.

(** ** Runs that reach the selection *)

Lemma try_fetch_funding_rate_events (cc : option ccxt_module) (ex s : string) :
  forallb is_row_event (events (try_fetch_funding_rate cc ex s)) = true.
Proof.
  unfold try_fetch_funding_rate. destruct cc as [m|]; [|reflexivity].
  cbn [bind emit lift]. destruct (m ex) as [x|e]; cbn; [|reflexivity].
  destruct (fetch_funding_rate x) as [f|].
  { destruct (f s); reflexivity. }
  destruct (fetchFundingRate x) as [f|].
  { destruct (f s); reflexivity. }
  destruct (fetchFundingRates x) as [f|]; [|reflexivity].
  destruct (f [s]) as [rates|e]; cbn; [|reflexivity].
  pose proof (find_rate_events s rates) as Hev. unfold events in Hev.
  destruct (find_rate s rates) as [[v|e] l]; cbn in *; subst l; reflexivity.
Qed.

Lemma forallb_flat_map {A B : Type} (p : B -> bool) (f : A -> list B)
    (l : list A) :
  (forall a, forallb p (f a) = true) -> forallb p (flat_map f l) = true.
Proof.
  intros H. induction l as [|a l IH]; [reflexivity|].
  cbn [flat_map]. rewrite forallb_app, H, IH. reflexivity.
Qed.

Lemma row_events_are_row_events (cfg : Config) (cc : option ccxt_module)
    (cols : columns) (median : pyfloat) (sel : list srow) :
  forallb is_row_event (flat_map (row_events cfg cc cols median) sel) = true.
Proof.
  apply forallb_flat_map. intros r. unfold row_events.
  rewrite forallb_app. apply andb_true_iff. split.
  - destruct (process_row_fault cfg cc cols median r)
      as [(sym & rk & Hs & Hr)|[e He]].
    + rewrite (process_row_eval cfg cc cols median r sym rk Hs Hr).
      cbn [events snd]. destruct cc as [m|]; [|reflexivity].
      rewrite funding_loop_spec. cbn [events snd].
      apply forallb_flat_map. intros s. apply try_fetch_funding_rate_events.
    + rewrite He. reflexivity.
  - destruct (result (process_row cfg cc cols median r)); reflexivity.
Qed.

Lemma row_events_silent (l : list event) :
  forallb is_row_event l = true ->
  filter is_send l = []
  /\ forall e, ~ In (Log EXCEPTION (MsgScanAborted e)) l.
Proof.
  induction l as [|ev l IH]; [intros _; split; [reflexivity | intros e []]|].
  cbn [forallb]. intros H. apply andb_true_iff in H. destruct H as [Hev Hl].
  destruct (IH Hl) as [IH1 IH2]. split.
  - cbn [filter]. destruct ev; try discriminate; cbn; exact IH1.
  - intros e [He|He]; [|exact (IH2 e He)]. subst ev. discriminate.
Qed.

(** The body of a run whose answer is a non-empty frame with ranks and a
    non-empty selection: the rows are scanned, then the candidates, if any,
    are reported. *)
Lemma scan_body_selected (cfg : Config) (w : World) (df : DataFrame) :
  fetch_coingecko_markets w = Ok (MarketList df) ->
  df_rows df <> [] ->
  has_market_cap_rank (df_columns df) = true ->
  rank_filter cfg (df_rows df) <> [] ->
  scan_body cfg w =
  let sel := selection cfg df in
  let cands :=
    flat_map (row_candidates cfg (ccxt w) (df_columns df) (median_vol sel)) sel in
  let tail :=
    match cands with
    | [] => logging INFO MsgNoCandidates
    | _ :: _ => send_report cfg w cands
    end in
  (result tail,
   Log INFO (MsgStarting (RANK_MIN cfg) (RANK_MAX cfg))
   :: flat_map (row_events cfg (ccxt w) (df_columns df) (median_vol sel)) sel
   ++ events tail).
Proof.
  intros Hf Hrows Hcol Hsel. unfold scan_body. rewrite Hf.
  cbn [lift bind logging emit]. destruct (df_rows df) as [|r0 rows0] eqn:E;
    [congruence|]. rewrite <- E in *. rewrite Hcol. cbn [negb].
  destruct (rank_filter cfg (df_rows df)) as [|s0 sel0] eqn:F; [congruence|].
  unfold find_candidates. rewrite scan_rows_spec. cbn [app].
  cbn zeta. cbn [bind].
  destruct (match flat_map _ _ with [] => _ | _ :: _ => _ end) as [o l].
  reflexivity.
Qed.

Lemma find_candidates_no_selection (cfg : Config) (cc : option ccxt_module)
    (df : DataFrame) :
  rank_filter cfg (df_rows df) = [] -> find_candidates cfg cc df = (Ok [], []).
Proof.
  intros H. unfold find_candidates, selection. rewrite H. reflexivity.
Qed.

(** With an empty selection or an empty candidate list the body returns
    normally and, after its first line, logs nothing but row events and one
    closing line. *)
Lemma scan_body_quiet (cfg : Config) (w : World) (df : DataFrame) :
  fetch_coingecko_markets w = Ok (MarketList df) ->
  rank_filter cfg (df_rows df) = []
  \/ result (find_candidates cfg (ccxt w) df) = Ok [] ->
  exists l lv m,
    scan_body cfg w =
    (Ok tt, Log INFO (MsgStarting (RANK_MIN cfg) (RANK_MAX cfg))
            :: l ++ [Log lv m])
    /\ forallb is_row_event l = true
    /\ (forall e, m <> MsgScanAborted e).
Proof.
  intros Hf Hz.
  destruct (df_rows df) as [|r0 rows0] eqn:E.
  { exists [], ERROR, MsgNoMarketData. split; [|split; [reflexivity|discriminate]].
    unfold scan_body. rewrite Hf. cbn [lift bind logging emit]. rewrite E.
    reflexivity. }
  destruct (has_market_cap_rank (df_columns df)) eqn:C.
  2: { exists [], ERROR, MsgMissingRank. split; [|split; [reflexivity|discriminate]].
       unfold scan_body. rewrite Hf. cbn [lift bind logging emit].
       rewrite E, C. reflexivity. }
  destruct (rank_filter cfg (df_rows df)) as [|s0 sel0] eqn:F.
  { exists [], INFO, (MsgNoCoinsInRange (RANK_MIN cfg) (RANK_MAX cfg)).
    split; [|split; [reflexivity|discriminate]].
    unfold scan_body. rewrite Hf. cbn [lift bind logging emit].
    rewrite E, C. rewrite <- E, F. reflexivity. }
  destruct Hz as [Hz|Hz]; [rewrite E in F; congruence|].
  assert (Hrows : df_rows df <> []) by (rewrite E; discriminate).
  assert (Hsel : rank_filter cfg (df_rows df) <> []) by (rewrite F; discriminate).
  rewrite (scan_body_selected cfg w df Hf Hrows C Hsel). cbn zeta.
  unfold find_candidates in Hz. rewrite scan_rows_spec in Hz.
  cbn [result fst app] in Hz. injection Hz as Hz. rewrite Hz.
  exists (flat_map (row_events cfg (ccxt w) (df_columns df)
                      (median_vol (selection cfg df))) (selection cfg df)),
         INFO, MsgNoCandidates.
  split; [reflexivity|]. split; [apply row_events_are_row_events|discriminate].
Qed.

(** C7. A run whose selection is empty, or whose scan finds no candidate,
    returns normally with no candidate and makes no notification attempt:
    [send_email] is never called, and the run is not aborted. *)
Theorem no_candidates_no_notification (cfg : Config) (w : World) (df : DataFrame) :
  fetch_coingecko_markets w = Ok (MarketList df) ->
  rank_filter cfg (df_rows df) = []
  \/ result (find_candidates cfg (ccxt w) df) = Ok [] ->
  result (run_scan cfg w) = Ok tt
  /\ result (find_candidates cfg (ccxt w) df) = Ok []
  /\ filter is_send (events (run_scan cfg w)) = []
  /\ (forall e, ~ In (Log EXCEPTION (MsgScanAborted e)) (events (run_scan cfg w))).
Proof.
  intros Hf Hz. split; [apply run_scan_completes|]. split.
  { destruct Hz as [Hz|Hz]; [|exact Hz].
    rewrite (find_candidates_no_selection cfg (ccxt w) df Hz). reflexivity. }
  destruct (scan_body_quiet cfg w df Hf Hz) as (l & lv & m & Hb & Hl & Hm).
  unfold run_scan. rewrite Hb. cbn [try_except events snd].
  destruct (row_events_silent l Hl) as [Hsend Habort]. split.
  - cbn [filter is_send]. rewrite filter_app, Hsend. reflexivity.
  - intros e [He|He]; [discriminate|].
    apply in_app_or in He. destruct He as [He|[He|[]]].
    + exact (Habort e He).
    + injection He as _ He. exact (Hm e He).
Qed.

Lemma no_candidates_no_notification_witness :
  filter is_send
    (events
       (run_scan mail_config
          (quiet_world
             (Ok (MarketList
                    {| df_columns := all_columns;
                       df_rows := [sample_row (TStr "btc") 55 (Num 200)
                                     (Num 0) (Num 0)] |})))))
  = [].
Proof.
  apply (no_candidates_no_notification mail_config
           (quiet_world
              (Ok (MarketList
                     {| df_columns := all_columns;
                        df_rows := [sample_row (TStr "btc") 55 (Num 200)
                                      (Num 0) (Num 0)] |})))
           {| df_columns := all_columns;
              df_rows := [sample_row (TStr "btc") 55 (Num 200) (Num 0) (Num 0)] |}
           eq_refl).
  right. reflexivity.
Defined.

(** ** Records without a rank *)

Lemma rank_filter_drop_null (cfg : Config) (rows1 rows2 : list row) (r : row) :
  market_cap_rank r = None ->
  rank_filter cfg (rows1 ++ r :: rows2) = rank_filter cfg (rows1 ++ rows2).
Proof.
  intros H. rewrite !rank_filter_app, rank_filter_cons, H. reflexivity.
Qed.

Lemma find_candidates_same_selection (cfg : Config) (cc : option ccxt_module)
    (cols : columns) (rows rows' : list row) :
  rank_filter cfg rows = rank_filter cfg rows' ->
  find_candidates cfg cc {| df_columns := cols; df_rows := rows |}
  = find_candidates cfg cc {| df_columns := cols; df_rows := rows' |}.
Proof.
  intros H. unfold find_candidates, selection. cbn [df_rows df_columns].
  rewrite H. reflexivity.
Qed.

Lemma scan_body_same_selection (cfg : Config) (w : World) (cols : columns)
    (rows rows' : list row) :
  rows <> [] -> rows' <> [] ->
  rank_filter cfg rows = rank_filter cfg rows' ->
  scan_body cfg
    (with_answer w (Ok (MarketList {| df_columns := cols; df_rows := rows |})))
  = scan_body cfg
      (with_answer w (Ok (MarketList {| df_columns := cols; df_rows := rows' |}))).
Proof.
  intros Hr Hr' H. unfold scan_body.
  cbn [with_answer fetch_coingecko_markets ccxt lift bind logging emit
       df_rows df_columns].
  rewrite (find_candidates_same_selection cfg (ccxt w) cols rows rows' H).
  destruct rows as [|x l]; [congruence|]. destruct rows' as [|x' l']; [congruence|].
  rewrite H. reflexivity.
Qed.

Lemma scan_body_with_answer (cfg : Config) (w : World) (mk : outcome markets) :
  fetch_coingecko_markets w = mk ->
  scan_body cfg w = scan_body cfg (with_answer w mk)
  /\ run_scan cfg w = run_scan cfg (with_answer w mk).
Proof.
  intros <-. destruct w as [f c s]. split; reflexivity.
Qed.

Lemma candidate_rank_selected (cfg : Config) (cc : option ccxt_module)
    (df : DataFrame) (c : candidate) :
  has_market_cap_rank (df_columns df) = true ->
  In c (flat_map (row_candidates cfg cc (df_columns df)
                    (median_vol (selection cfg df))) (selection cfg df)) ->
  exists r, In r (rank_filter cfg (df_rows df))
            /\ market_cap_rank r = Some (c_rank c).
Proof.
  intros Hcol Hc. apply in_flat_map in Hc. destruct Hc as (s & Hs & Hc).
  unfold selection in Hs. apply in_map_iff in Hs. destruct Hs as (r & <- & Hr).
  exists r. split; [exact Hr|]. revert Hc. unfold row_candidates.
  generalize (median_vol (selection cfg df)). intros median.
  destruct (process_row_fault cfg cc (df_columns df) median
              (derive (df_columns df) r)) as [(sym & rk & Hsym & Hrk)|[e He]].
  - rewrite (process_row_eval cfg cc _ median _ sym rk Hsym Hrk).
    cbn [result fst]. destruct (2 <=? _)%nat; [|intros []].
    intros [<-|[]]. cbn [candidate_of c_rank].
    revert Hrk. unfold get_rank. cbn [derive s_base]. rewrite Hcol.
    destruct (market_cap_rank r); [|discriminate].
    unfold ret. intros Hrk. congruence.
  - rewrite He. intros [].
Qed.

(** C10. A record whose own rank is null or NaN is dropped by the rank filter
    without any error: it is not in the selection; the selection, the
    candidates and the events of the scan are those of the frame without the
    record; every candidate carries the rank of a selected row, which the
    record has not; the whole run is the run on the answer without the
    record whenever that answer has another record, and otherwise ends on
    the "no coins in range" line; and the run returns normally. *)
Theorem null_rank_is_excluded (cfg : Config) (w : World) (cols : columns)
    (rows1 rows2 : list row) (r : row) :
  market_cap_rank r = None ->
  fetch_coingecko_markets w =
    Ok (MarketList {| df_columns := cols; df_rows := rows1 ++ r :: rows2 |}) ->
  has_market_cap_rank cols = true ->
  ~ In r (rank_filter cfg (rows1 ++ r :: rows2))
  /\ rank_filter cfg (rows1 ++ r :: rows2) = rank_filter cfg (rows1 ++ rows2)
  /\ find_candidates cfg (ccxt w)
       {| df_columns := cols; df_rows := rows1 ++ r :: rows2 |}
     = find_candidates cfg (ccxt w)
         {| df_columns := cols; df_rows := rows1 ++ rows2 |}
  /\ (forall cands c,
        result (find_candidates cfg (ccxt w)
                  {| df_columns := cols; df_rows := rows1 ++ r :: rows2 |})
        = Ok cands ->
        In c cands ->
        exists r', In r' (rank_filter cfg (rows1 ++ rows2))
                   /\ market_cap_rank r' = Some (c_rank c))
  /\ (rows1 ++ rows2 <> [] ->
      run_scan cfg w =
      run_scan cfg
        (with_answer w
           (Ok (MarketList {| df_columns := cols; df_rows := rows1 ++ rows2 |}))))
  /\ (rows1 ++ rows2 = [] ->
      run_scan cfg w =
      (Ok tt, [Log INFO (MsgStarting (RANK_MIN cfg) (RANK_MAX cfg));
               Log INFO (MsgNoCoinsInRange (RANK_MIN cfg) (RANK_MAX cfg))]))
  /\ result (run_scan cfg w) = Ok tt.
Proof.
  intros Hnull Hf Hcol.
  pose proof (rank_filter_drop_null cfg rows1 rows2 r Hnull) as Hdrop.
  split; [|split; [exact Hdrop|split; [|split; [|split; [|split]]]]].
  - intros Hin. apply rank_filter_In in Hin. destruct Hin as [_ (z & Hz & _)].
    congruence.
  - apply find_candidates_same_selection, Hdrop.
  - intros cands c Hres Hc.
    rewrite (find_candidates_same_selection cfg (ccxt w) cols _ _ Hdrop) in Hres.
    unfold find_candidates in Hres. rewrite scan_rows_spec in Hres.
    cbn [result fst app] in Hres. injection Hres as <-.
    apply (candidate_rank_selected cfg (ccxt w)
             {| df_columns := cols; df_rows := rows1 ++ rows2 |} c Hcol Hc).
  - intros Hne. destruct (scan_body_with_answer cfg w _ Hf) as [_ ->].
    unfold run_scan.
    rewrite (scan_body_same_selection cfg w cols (rows1 ++ r :: rows2)
               (rows1 ++ rows2)); [reflexivity| |exact Hne|exact Hdrop].
    destruct rows1; discriminate.
  - intros Hnil. apply app_eq_nil in Hnil. destruct Hnil as [-> ->].
    unfold run_scan, scan_body. rewrite Hf.
    cbn [lift bind logging emit df_rows df_columns app].
    rewrite Hcol, rank_filter_cons, Hnull. reflexivity.
  - apply run_scan_completes.
Qed.

Lemma null_rank_is_excluded_witness :
  find_candidates default_config None
    {| df_columns := all_columns;
       df_rows := [{| r_id := TStr "ghost"; r_symbol := TStr "gst";
                      r_name := TStr "Ghost"; market_cap_rank := None;
                      current_price := Num 1; total_volume := Num 900;
                      price_change_percentage_1h_in_currency := Num 9;
                      price_change_percentage_24h := Num 9;
                      price_change_percentage_24h_in_currency := Num 9;
                      price_change_24h := Num 0 |}] |}
  = find_candidates default_config None
      {| df_columns := all_columns; df_rows := [] |}.
Proof.
  apply (null_rank_is_excluded default_config
           (quiet_world
              (Ok (MarketList
                     {| df_columns := all_columns;
                        df_rows := [] ++
                          {| r_id := TStr "ghost"; r_symbol := TStr "gst";
                             r_name := TStr "Ghost"; market_cap_rank := None;
                             current_price := Num 1; total_volume := Num 900;
                             price_change_percentage_1h_in_currency := Num 9;
                             price_change_percentage_24h := Num 9;
                             price_change_percentage_24h_in_currency := Num 9;
                             price_change_24h := Num 0 |} :: [] |})))
           all_columns [] []
           {| r_id := TStr "ghost"; r_symbol := TStr "gst";
              r_name := TStr "Ghost"; market_cap_rank := None;
              current_price := Num 1; total_volume := Num 900;
              price_change_percentage_1h_in_currency := Num 9;
              price_change_percentage_24h := Num 9;
              price_change_percentage_24h_in_currency := Num 9;
              price_change_24h := Num 0 |}
           eq_refl eq_refl eq_refl).
Defined.

(** ** Order of the report *)

Lemma insert_by_rank_perm (c : candidate) (l : list candidate) :
  Permutation (insert_by_rank c l) (c :: l).
Proof.
  induction l as [|d l IH]; [apply Permutation_refl|].
  cbn [insert_by_rank]. destruct (c_rank c <=? c_rank d).
  - apply Permutation_refl.
  - apply perm_trans with (d :: c :: l); [apply perm_skip, IH | apply perm_swap].
Qed.

Lemma sorted_by_rank_perm (l : list candidate) :
  Permutation (sorted_by_rank l) l.
Proof.
  induction l as [|c l IH]; [apply perm_nil|].
  cbn [sorted_by_rank fold_right]. fold (sorted_by_rank l).
  apply perm_trans with (c :: sorted_by_rank l);
    [apply insert_by_rank_perm | apply perm_skip, IH].
Qed.

Lemma insert_by_rank_sorted (c : candidate) (l : list candidate) :
  rank_ascending l -> rank_ascending (insert_by_rank c l).
Proof.
  unfold rank_ascending. induction l as [|d l IH]; intros Hs.
  - cbn. repeat constructor.
  - cbn [insert_by_rank]. destruct (c_rank c <=? c_rank d) eqn:E.
    + apply Z.leb_le in E. cbn [map]. constructor; [exact Hs|].
      constructor. exact E.
    + apply Z.leb_gt in E. cbn [map] in *.
      inversion Hs as [|a b Hs' Hhd]; subst.
      constructor; [apply IH, Hs'|].
      destruct l as [|d' l'].
      * cbn. constructor. lia.
      * cbn [insert_by_rank]. destruct (c_rank c <=? c_rank d'); cbn [map].
        -- constructor. lia.
        -- inversion Hhd; subst. constructor. assumption.
Qed.

Lemma sorted_by_rank_sorted (l : list candidate) :
  rank_ascending (sorted_by_rank l).
Proof.
  induction l as [|c l IH]; [constructor|].
  cbn [sorted_by_rank fold_right]. apply insert_by_rank_sorted, IH.
Qed.

Lemma render_loop_spec (cs : list candidate) (html : list table_row) :
  match result (render_loop cs html) with
  | Ok rows =>
      map td_rank rows = map td_rank html ++ map c_rank cs
      /\ map td_symbol rows = map td_symbol html ++ map c_symbol cs
  | Raise e => e = ValueError /\ exists c, In c cs /\ c_vol c = NaN
  end
  /\ events (render_loop cs html) = []
  /\ ((forall c, In c cs -> c_vol c <> NaN) ->
      exists rows, result (render_loop cs html) = Ok rows).
Proof.
  revert html. induction cs as [|c cs IH]; intros html.
  - cbn. rewrite !app_nil_r. split; [auto|]. split; [reflexivity|]. eauto.
  - cbn [render_loop]. unfold render_row, int_of_float.
    destruct (c_vol c) as [q|] eqn:V.
    + cbn [bind ret].
      match goal with
      | |- context [render_loop cs ?h] =>
          specialize (IH h); destruct (render_loop cs h) as [[rows|e] l]
      end; cbn [result events fst snd] in *.
      * destruct IH as ((IH1 & IH2) & -> & IH3). split; [split|split].
        -- rewrite IH1, map_app, <- app_assoc. reflexivity.
        -- rewrite IH2, map_app, <- app_assoc. reflexivity.
        -- reflexivity.
        -- eauto.
      * destruct IH as ((-> & c' & Hc' & Hv) & -> & IH3). split; [|split].
        -- split; [reflexivity|]. exists c'. split; [right|]; assumption.
        -- reflexivity.
        -- intros Hall. destruct IH3 as [rows Hrows];
             [intros x Hx; apply Hall; right; exact Hx | discriminate].
    + cbn. split; [|split].
      * split; [reflexivity|]. exists c. split; [left; reflexivity|exact V].
      * reflexivity.
      * intros Hall. exfalso. apply (Hall c); [left; reflexivity|exact V].
Qed.

(** C9. The rows of a rendered report follow the candidates sorted by rank:
    their ranks never go down from one row to the next, and they are the
    ranks of the candidates, each as often as it occurs.  A report is
    rendered whenever every candidate has a volume; the rendering raises
    (no report) exactly on a candidate whose volume is NaN. *)
Theorem report_in_rank_order (candidates : list candidate) :
  match result (render_report candidates) with
  | Ok rows =>
      Sorted Z.le (map td_rank rows)
      /\ Permutation (map td_rank rows) (map c_rank candidates)
      /\ map td_rank rows = map c_rank (sorted_by_rank candidates)
  | Raise e => e = ValueError /\ exists c, In c candidates /\ c_vol c = NaN
  end
  /\ rank_ascending (sorted_by_rank candidates)
  /\ Permutation (sorted_by_rank candidates) candidates
  /\ ((forall c, In c candidates -> c_vol c <> NaN) ->
      exists rows, result (render_report candidates) = Ok rows).
Proof.
  unfold render_report.
  destruct (render_loop_spec (sorted_by_rank candidates) []) as (H1 & _ & H3).
  pose proof (sorted_by_rank_perm candidates) as Hp.
  pose proof (sorted_by_rank_sorted candidates) as Hs.
  split; [|split; [exact Hs|split; [exact Hp|]]].
  - destruct (result (render_loop (sorted_by_rank candidates) [])) as [rows|e].
    + destruct H1 as [H1 _]. cbn [map app] in H1. rewrite H1.
      split; [exact Hs|]. split; [|reflexivity].
      apply Permutation_map, Hp.
    + destruct H1 as (-> & c & Hc & Hv). split; [reflexivity|].
      exists c. split; [|exact Hv].
      apply (Permutation_in c Hp Hc).
  - intros Hall. apply H3. intros c Hc. apply Hall.
    apply (Permutation_in c Hp Hc).
Qed.

(** ** Median volume *)

Lemma filter_length_perm {A : Type} (p : A -> bool) (l l' : list A) :
  Permutation l l' -> List.length (filter p l) = List.length (filter p l').
Proof.
  induction 1 as [|x l l' _ IH|x y l|l l' l'' _ IH1 _ IH2].
  - reflexivity.
  - cbn. destruct (p x); cbn; congruence.
  - cbn. destruct (p x), (p y); reflexivity.
  - congruence.
Qed.

Lemma q_insert_perm (x : Q) (l : list Q) : Permutation (q_insert x l) (x :: l).
Proof.
  induction l as [|y l IH]; [apply Permutation_refl|].
  cbn [q_insert]. destruct (Qle_bool x y).
  - apply Permutation_refl.
  - apply perm_trans with (y :: x :: l); [apply perm_skip, IH | apply perm_swap].
Qed.

Lemma q_sort_perm (l : list Q) : Permutation (q_sort l) l.
Proof.
  induction l as [|x l IH]; [apply perm_nil|].
  cbn [q_sort fold_right]. fold (q_sort l).
  apply perm_trans with (x :: q_sort l);
    [apply q_insert_perm | apply perm_skip, IH].
Qed.

Lemma q_insert_sorted (x : Q) (l : list Q) :
  StronglySorted Qle l -> StronglySorted Qle (q_insert x l).
Proof.
  induction 1 as [|y l Hs IH Hy]; [repeat constructor|].
  cbn [q_insert]. destruct (Qle_bool x y) eqn:E.
  - apply Qle_bool_iff in E. constructor; [constructor; assumption|].
    constructor; [exact E|].
    apply Forall_impl with (P := Qle y); [|exact Hy].
    intros z Hz. apply Qle_trans with y; assumption.
  - assert (Hyx : (y <= x)%Q).
    { apply Qlt_le_weak, Qnot_le_lt. intros H. apply Qle_bool_iff in H.
      congruence. }
    constructor; [exact IH|].
    apply (Permutation_Forall (Permutation_sym (q_insert_perm x l))).
    constructor; assumption.
Qed.

Lemma q_sort_sorted (l : list Q) : StronglySorted Qle (q_sort l).
Proof.
  induction l as [|x l IH]; [constructor|].
  cbn [q_sort fold_right]. apply q_insert_sorted, IH.
Qed.

Lemma count_le_mono (a m : Q) (l : list Q) :
  (a <= m)%Q -> (count_le a l <= count_le m l)%nat.
Proof.
  intros H. unfold count_le. induction l as [|x l IH]; [reflexivity|].
  cbn [filter]. destruct (Qle_bool x a) eqn:E.
  - apply Qle_bool_iff in E.
    assert (E' : Qle_bool x m = true)
      by (apply Qle_bool_iff, Qle_trans with a; assumption).
    rewrite E'. cbn. lia.
  - destruct (Qle_bool x m); cbn; lia.
Qed.

Lemma count_ge_mono (b m : Q) (l : list Q) :
  (m <= b)%Q -> (count_ge b l <= count_ge m l)%nat.
Proof.
  intros H. unfold count_ge. induction l as [|x l IH]; [reflexivity|].
  cbn [filter]. destruct (Qle_bool b x) eqn:E.
  - apply Qle_bool_iff in E.
    assert (E' : Qle_bool m x = true)
      by (apply Qle_bool_iff, Qle_trans with b; assumption).
    rewrite E'. cbn. lia.
  - destruct (Qle_bool m x); cbn; lia.
Qed.

Lemma count_ge_all (a : Q) (l : list Q) :
  Forall (Qle a) l -> count_ge a l = List.length l.
Proof.
  unfold count_ge. induction 1 as [|x l Hx _ IH]; [reflexivity|].
  cbn [filter]. apply Qle_bool_iff in Hx. rewrite Hx. cbn. congruence.
Qed.

(** In a sorted list the value at index [k] has the [k+1] first values at
    most equal to it, and the values from index [k] on at least equal. *)
Lemma sorted_counts (s : list Q) :
  StronglySorted Qle s ->
  forall k, (k < List.length s)%nat ->
    (k + 1 <= count_le (nth k s 0%Q) s)%nat
    /\ (List.length s - k <= count_ge (nth k s 0%Q) s)%nat.
Proof.
  induction 1 as [|a s Hs IH Ha]; intros k Hk; [cbn in Hk; lia|].
  destruct k as [|k].
  - cbn [nth]. split.
    + unfold count_le. cbn [filter].
      rewrite (proj2 (Qle_bool_iff a a) (Qle_refl a)). cbn. lia.
    + rewrite (count_ge_all a (a :: s)); [cbn; lia|].
      constructor; [apply Qle_refl | exact Ha].
  - cbn [nth]. cbn [List.length] in Hk.
    destruct (IH k ltac:(lia)) as [IH1 IH2].
    assert (Hax : (a <= nth k s 0)%Q).
    { apply (proj1 (Forall_forall _ _) Ha). apply nth_In. lia. }
    split.
    + unfold count_le in *. cbn [filter].
      rewrite (proj2 (Qle_bool_iff _ _) Hax). cbn. lia.
    + unfold count_ge in *. cbn [filter List.length].
      destruct (Qle_bool (nth k s 0%Q) a); cbn; lia.
Qed.

Lemma Qmean_between (a b : Q) :
  (a <= b)%Q -> (a <= (a + b) / 2)%Q /\ ((a + b) / 2 <= b)%Q.
Proof.
  intros H. split.
  - apply Qle_shift_div_l; [reflexivity|]. lra.
  - apply Qle_shift_div_r; [reflexivity|]. lra.
Qed.

Lemma sorted_nth_le (s : list Q) :
  StronglySorted Qle s ->
  forall i j, (i <= j)%nat -> (j < List.length s)%nat ->
    (nth i s 0 <= nth j s 0)%Q.
Proof.
  induction 1 as [|a s Hs IH Ha]; intros i j Hij Hj; [cbn in Hj; lia|].
  cbn [List.length] in Hj. destruct j as [|j].
  - replace i with 0%nat by lia. apply Qle_refl.
  - destruct i as [|i]; cbn [nth].
    + apply (proj1 (Forall_forall _ _) Ha). apply nth_In. lia.
    + apply IH; lia.
Qed.

Lemma dropna_nil (col : list cell) :
  dropna col = [] <-> forallb isna col = true.
Proof.
  induction col as [|[q| |] col IH]; cbn; try exact IH.
  - tauto.
  - split; discriminate.
Qed.

(** The middle of a sorted list is a median of it. *)
Lemma sorted_middle_is_median (s : list Q) :
  StronglySorted Qle s -> s <> [] ->
  is_median
    (if Nat.even (List.length s)
     then (nth (List.length s / 2 - 1)%nat s 0 + nth (List.length s / 2)%nat s 0) / 2
     else nth (List.length s / 2)%nat s 0)%Q
    s.
Proof.
  intros Hs Hne. unfold is_median.
  assert (Hpos : (0 < List.length s)%nat)
    by (destruct s; [congruence | cbn; lia]).
  destruct (Nat.even (List.length s)) eqn:Ev.
  - apply Nat.even_spec in Ev. destruct Ev as [k Hk].
    assert (Hdiv : (List.length s / 2 = k)%nat)
      by (symmetry; apply (Nat.div_unique _ 2 k 0); lia).
    rewrite Hdiv.
    set (a := nth (k - 1) s 0%Q). set (b := nth k s 0%Q).
    assert (Hab : (a <= b)%Q) by (apply sorted_nth_le; [exact Hs|lia|lia]).
    destruct (Qmean_between a b Hab) as [Hlo Hhi].
    destruct (sorted_counts s Hs (k - 1)%nat ltac:(lia)) as [Ha _].
    destruct (sorted_counts s Hs k ltac:(lia)) as [_ Hb].
    fold a in Ha. fold b in Hb.
    pose proof (count_le_mono a ((a + b) / 2) s Hlo).
    pose proof (count_ge_mono b ((a + b) / 2) s Hhi).
    lia.
  - assert (Hodd : Nat.odd (List.length s) = true)
      by (rewrite <- Nat.negb_even, Ev; reflexivity).
    apply Nat.odd_spec in Hodd. destruct Hodd as [k Hk].
    assert (Hdiv : (List.length s / 2 = k)%nat)
      by (symmetry; apply (Nat.div_unique _ 2 k 1); lia).
    rewrite Hdiv.
    destruct (sorted_counts s Hs k ltac:(lia)) as [Ha Hb].
    lia.
Qed.

Lemma is_median_perm (m : Q) (l l' : list Q) :
  Permutation l l' -> is_median m l -> is_median m l'.
Proof.
  intros Hp. unfold is_median, count_le, count_ge.
  rewrite !(filter_length_perm _ _ _ Hp), (Permutation_length Hp). auto.
Qed.

(** The median of a column with a present value is a median of its present
    values. *)
Lemma series_median_is_median (col : list cell) :
  dropna col <> [] ->
  exists m, series_median col = Fin m /\ is_median m (dropna col).
Proof.
  intros Hne. unfold series_median.
  pose proof (q_sort_perm (dropna col)) as Hp.
  pose proof (q_sort_sorted (dropna col)) as Hs.
  assert (Hne' : q_sort (dropna col) <> []).
  { intros E. rewrite E in Hp. apply Permutation_nil in Hp. congruence. }
  pose proof (sorted_middle_is_median _ Hs Hne') as Hm.
  apply (is_median_perm _ _ _ Hp) in Hm.
  cbn zeta. destruct (q_sort (dropna col)) as [|x s'] eqn:E; [congruence|].
  cbn [List.length]. cbn [List.length] in Hm.
  destruct (Nat.even (S (List.length s'))); eexists; split;
    try reflexivity; exact Hm.
Qed.










(** The median is that of the selection, not of the whole frame: with ranks
    10, 50, 60 and volumes 1000, 10, 30 the selection holds the last two
    rows and the median is 20, while the median of the three volumes is
    30. *)
Lemma median_vol_ignores_unselected_rows :
  median_vol
    (selection default_config
       {| df_columns := all_columns;
          df_rows := [sample_row (TStr "a") 10 (Num 1000) (Num 0) (Num 0);
                      sample_row (TStr "b") 50 (Num 10) (Num 0) (Num 0);
                      sample_row (TStr "c") 60 (Num 30) (Num 0) (Num 0)] |})
  = Fin ((10 + 30) / 2)
  /\ series_median [Num 1000; Num 10; Num 30] = Fin 30.
Proof.
  split; reflexivity.
Qed.

(** * Further properties *)

(** ** Notification *)

Lemma send_email_sends (cfg : Config) (w : World) (s : subject) (b : body) :
  filter is_send (events (send_email cfg w s b)) = [SendEmail s b].
Proof.
  rewrite send_email_cases.
  destruct (is_empty (SMTP_USER cfg) || is_empty (SMTP_PASSWORD cfg)
            || is_empty (EMAIL_RECIPIENT cfg)); [reflexivity|].
  destruct (MIMEText w b) as [[]|e]; [|reflexivity].
  destruct (smtp_session cfg w s b) as [[]|e]; [|reflexivity].
  destruct (srv_quit (smtp w)) as [[]|e]; reflexivity.
Qed.

Lemma send_email_delivers (cfg : Config) (w : World) (s : subject) (b : body) :
  (List.length (filter is_delivered (events (send_email cfg w s b))) <= 1)%nat
  /\ (forall e, result (send_email cfg w s b) = Raise e ->
      filter is_delivered (events (send_email cfg w s b)) = []).
Proof.
  rewrite send_email_cases.
  destruct (is_empty (SMTP_USER cfg) || is_empty (SMTP_PASSWORD cfg)
            || is_empty (EMAIL_RECIPIENT cfg)); [cbn; split; [lia|discriminate]|].
  destruct (MIMEText w b) as [[]|e]; [|cbn; split; [lia|reflexivity]].
  destruct (smtp_session cfg w s b) as [[]|e]; [|cbn; split; [lia|discriminate]].
  destruct (srv_quit (smtp w)) as [[]|e]; cbn; split; try lia; discriminate.
Qed.

(** X1. [send_email] raises exactly when the account is configured and the
    message cannot be built: [MIMEText] runs outside the [try], while every
    fault of the SMTP dialogue is caught.  It returns success exactly when
    the message was built and the whole dialogue, [quit] included, went
    through.  The mail is handed to the server as soon as [sendmail]
    returned, so a [quit] that raises afterwards makes the call report a
    failure for a mail that was handed over.  Without a complete
    configuration nothing is built and the server is not contacted. *)
Theorem send_email_outcome (cfg : Config) (w : World) (s : subject) (b : body) :
  (forall e, result (send_email cfg w s b) = Raise e <->
     configured cfg = true /\ MIMEText w b = Raise e)
  /\ (forall info, result (send_email cfg w s b) = Ok (true, info) <->
        info = InfoOk /\ configured cfg = true /\ MIMEText w b = Ok tt
        /\ smtp_session cfg w s b = Ok tt /\ srv_quit (smtp w) = Ok tt)
  /\ (In (Delivered s b) (events (send_email cfg w s b)) <->
      configured cfg = true /\ MIMEText w b = Ok tt
      /\ smtp_session cfg w s b = Ok tt)
  /\ (forall e, configured cfg = true -> MIMEText w b = Ok tt ->
        smtp_session cfg w s b = Ok tt -> srv_quit (smtp w) = Raise e ->
        result (send_email cfg w s b) = Ok (false, InfoError e)
        /\ In (Delivered s b) (events (send_email cfg w s b)))
  /\ (forall e, configured cfg = true -> MIMEText w b = Ok tt ->
        smtp_session cfg w s b = Raise e ->
        send_email cfg w s b =
        (Ok (false, InfoError e),
         [SendEmail s b; Log EXCEPTION (MsgSendFailed e)]))
  /\ (configured cfg = false ->
      result (send_email cfg w s b) = Ok (false, InfoNotConfigured)
      /\ forall w', send_email cfg w' s b = send_email cfg w s b).
Proof.
  rewrite send_email_cases. unfold configured.
  destruct (is_empty (SMTP_USER cfg) || is_empty (SMTP_PASSWORD cfg)
            || is_empty (EMAIL_RECIPIENT cfg)) eqn:C; cbn [negb].
  { split; [|split; [|split; [|split; [|split]]]].
    - intros e. split; [discriminate | intros [H _]; discriminate].
    - intros info. split; [discriminate | intros (_ & H & _); discriminate].
    - cbn. split; [intros [H|[H|[]]]; discriminate | intros [H _]; discriminate].
    - discriminate.
    - discriminate.
    - intros _. split; [reflexivity|]. intros w'.
      rewrite send_email_cases, C. reflexivity. }
  destruct (MIMEText w b) as [[]|e0] eqn:Hm.
  2: { split; [|split; [|split; [|split; [|split]]]].
       - intros e. cbn. split.
         + intros H. injection H as <-. auto.
         + intros [_ H]. injection H as <-. reflexivity.
       - intros info. split; [discriminate | intros (_ & _ & H & _); discriminate].
       - cbn. split; [intros [H|[]]; discriminate
                     | intros (_ & H & _); discriminate].
       - discriminate.
       - discriminate.
       - discriminate. }
  destruct (smtp_session cfg w s b) as [[]|e1] eqn:Hs.
  2: { split; [|split; [|split; [|split; [|split]]]].
       - intros e. split; [discriminate | intros [_ H]; discriminate].
       - intros info. split; [discriminate
                             | intros (_ & _ & _ & H & _); discriminate].
       - cbn. split; [intros [H|[H|[]]]; discriminate
                     | intros (_ & _ & H); discriminate].
       - discriminate.
       - intros e _ _ H. injection H as <-. reflexivity.
       - discriminate. }
  destruct (srv_quit (smtp w)) as [[]|e2] eqn:Hq.
  - split; [|split; [|split; [|split; [|split]]]].
    + intros e. split; [discriminate | intros [_ H]; discriminate].
    + intros info. cbn. split.
      * intros H. injection H as <-. auto.
      * intros (-> & _). reflexivity.
    + cbn. split; [auto | intros _; right; left; reflexivity].
    + discriminate.
    + discriminate.
    + discriminate.
  - split; [|split; [|split; [|split; [|split]]]].
    + intros e. split; [discriminate | intros [_ H]; discriminate].
    + intros info. split; [discriminate
                          | intros (_ & _ & _ & _ & H); discriminate].
    + cbn. split; [auto | intros _; right; left; reflexivity].
    + intros e _ _ _ H. injection H as <-. cbn.
      split; [reflexivity | right; left; reflexivity].
    + discriminate.
    + discriminate.
Qed.

(** ** Delivery of the report *)

Lemma render_report_cases (candidates : list candidate) :
  (exists rows,
     render_report candidates = (Ok rows, [])
     /\ List.length rows = List.length candidates
     /\ map td_rank rows = map c_rank (sorted_by_rank candidates))
  \/ (render_report candidates = (Raise ValueError, [])
      /\ exists c, In c candidates /\ c_vol c = NaN).
Proof.
  unfold render_report.
  destruct (render_loop_spec (sorted_by_rank candidates) []) as (H1 & H2 & _).
  pose proof (sorted_by_rank_perm candidates) as Hp.
  destruct (render_loop (sorted_by_rank candidates) []) as [[rows|e] l];
    cbn [result events fst snd] in *; subst l.
  - left. exists rows. destruct H1 as [H1 _]. cbn [map app] in H1.
    split; [reflexivity|]. split; [|exact H1].
    rewrite <- (length_map td_rank rows), H1, length_map.
    apply Permutation_length, Hp.
  - right. destruct H1 as (-> & c & Hc & Hv). split; [reflexivity|].
    exists c. split; [apply (Permutation_in c Hp Hc) | exact Hv].
Qed.

(** What [send_report] does with the rendered rows: the call of
    [send_email], then the closing line unless the call raised. *)
Lemma send_report_rendered (cfg : Config) (w : World)
    (candidates : list candidate) (rows : list table_row) :
  render_report candidates = (Ok rows, []) ->
  send_report cfg w candidates =
  match result (send_email cfg w (report_subject candidates)
                  (report_body cfg candidates rows)) with
  | Ok sent =>
      (Ok tt,
       events (send_email cfg w (report_subject candidates)
                 (report_body cfg candidates rows))
       ++ [delivery_line sent])
  | Raise e =>
      (Raise e,
       events (send_email cfg w (report_subject candidates)
                 (report_body cfg candidates rows)))
  end.
Proof.
  intros Hr. unfold send_report. rewrite Hr. cbn [bind].
  fold (report_subject candidates) (report_body cfg candidates rows).
  destruct (send_email cfg w (report_subject candidates)
              (report_body cfg candidates rows)) as [[[ok info]|e] l];
    cbn [result events fst snd]; [|reflexivity].
  unfold delivery_line. cbn [fst snd]. destruct ok; reflexivity.
Qed.

Lemma send_report_fault (cfg : Config) (w : World)
    (candidates : list candidate) (e : exn) :
  render_report candidates = (Raise e, []) ->
  send_report cfg w candidates = (Raise e, []).
Proof.
  intros Hr. unfold send_report. rewrite Hr. reflexivity.
Qed.

(** X2. When every candidate has a volume, the report is rendered with one
    row per candidate and handed to [send_email] exactly once, under a
    subject carrying the number of candidates.  The delivery raises exactly
    when the account is configured and the text of the report cannot be
    encoded.  "Report emailed" is logged exactly when the message was built
    and the whole SMTP dialogue, [quit] included, went through, while the
    mail is handed over as soon as [sendmail] returned; every other
    completed delivery logs the failure. *)
Theorem report_delivery (cfg : Config) (w : World) (candidates : list candidate) :
  (forall c, In c candidates -> c_vol c <> NaN) ->
  exists rows,
    result (render_report candidates) = Ok rows
    /\ List.length rows = List.length candidates
    /\ filter is_send (events (send_report cfg w candidates))
       = [SendEmail (SubjCandidates (List.length candidates))
            (report_body cfg candidates rows)]
    /\ (forall e, result (send_report cfg w candidates) = Raise e <->
          configured cfg = true /\ mime_text w rows = Raise e)
    /\ (In (Log INFO MsgReportEmailed) (events (send_report cfg w candidates))
        <-> configured cfg = true /\ mime_text w rows = Ok tt
            /\ smtp_session cfg w (report_subject candidates)
                 (report_body cfg candidates rows) = Ok tt
            /\ srv_quit (smtp w) = Ok tt)
    /\ (In (Delivered (report_subject candidates)
              (report_body cfg candidates rows))
           (events (send_report cfg w candidates))
        <-> configured cfg = true /\ mime_text w rows = Ok tt
            /\ smtp_session cfg w (report_subject candidates)
                 (report_body cfg candidates rows) = Ok tt)
    /\ (result (send_report cfg w candidates) = Ok tt ->
        In (Log INFO MsgReportEmailed) (events (send_report cfg w candidates))
        \/ exists info,
             In (Log ERROR (MsgEmailFailed info))
                (events (send_report cfg w candidates))).
Proof.
  intros Hvol.
  destruct (render_report_cases candidates)
    as [(rows & Hr & Hlen & _)|(_ & c & Hc & Hv)];
    [|exfalso; exact (Hvol c Hc Hv)].
  exists rows. rewrite Hr. split; [reflexivity|]. split; [exact Hlen|].
  rewrite (send_report_rendered cfg w candidates rows Hr).
  rewrite send_email_cases. unfold configured, report_subject.
  set (s := SubjCandidates (List.length candidates)).
  set (b := report_body cfg candidates rows).
  change (MIMEText w b) with (mime_text w rows).
  destruct (is_empty (SMTP_USER cfg) || is_empty (SMTP_PASSWORD cfg)
            || is_empty (EMAIL_RECIPIENT cfg)); cbn [negb].
  { cbn. split; [reflexivity|]. split; [|split; [|split]].
    - intros e. split; [discriminate | intros [H _]; discriminate].
    - split; [intros [H|[H|[H|[]]]]; discriminate | intros [H _]; discriminate].
    - split; [intros [H|[H|[H|[]]]]; discriminate | intros [H _]; discriminate].
    - intros _. right. exists InfoNotConfigured. right. right. left. reflexivity. }
  destruct (mime_text w rows) as [[]|e0].
  2: { cbn. split; [reflexivity|]. split; [|split; [|split]].
       - intros e. split.
         + intros H. injection H as <-. auto.
         + intros [_ H]. injection H as <-. reflexivity.
       - split; [intros [H|[]]; discriminate | intros (_ & H & _); discriminate].
       - split; [intros [H|[]]; discriminate | intros (_ & H & _); discriminate].
       - discriminate. }
  destruct (smtp_session cfg w s b) as [[]|e1].
  2: { cbn. split; [reflexivity|]. split; [|split; [|split]].
       - intros e. split; [discriminate | intros [_ H]; discriminate].
       - split; [intros [H|[H|[H|[]]]]; discriminate
                | intros (_ & _ & H & _); discriminate].
       - split; [intros [H|[H|[H|[]]]]; discriminate
                | intros (_ & _ & H); discriminate].
       - intros _. right. exists (InfoError e1). right. right. left.
         reflexivity. }
  destruct (srv_quit (smtp w)) as [[]|e2].
  - cbn. split; [reflexivity|]. split; [|split; [|split]].
    + intros e. split; [discriminate | intros [_ H]; discriminate].
    + split; [auto | intros _; right; right; right; left; reflexivity].
    + split; [auto | intros _; right; left; reflexivity].
    + intros _. left. right. right. right. left. reflexivity.
  - cbn. split; [reflexivity|]. split; [|split; [|split]].
    + intros e. split; [discriminate | intros [_ H]; discriminate].
    + split; [intros [H|[H|[H|[H|[]]]]]; discriminate
             | intros (_ & _ & _ & H); discriminate].
    + split; [auto | intros _; right; left; reflexivity].
    + intros _. right. exists (InfoError e2). right. right. right. left.
      reflexivity.
Qed.

Lemma report_delivery_witness :
  exists rows,
    result (render_report [sample_candidate]) = Ok rows
    /\ List.length rows = 1%nat.
Proof.
  destruct (report_delivery mail_config (quiet_world (Raise ValueError))
              [sample_candidate]) as (rows & Hr & Hlen & _).
  - intros c [<-|[]]. discriminate.
  - exists rows. split; [exact Hr | exact Hlen].
Defined.

(** ** A candidate without a volume *)

Lemma render_loop_nan (cs : list candidate) (html : list table_row) :
  (exists c, In c cs /\ c_vol c = NaN) ->
  render_loop cs html = (Raise ValueError, []).
Proof.
  revert html. induction cs as [|c0 cs IH]; intros html (c & Hc & Hv).
  - destruct Hc.
  - cbn [render_loop]. unfold render_row, int_of_float.
    destruct (c_vol c0) as [q|] eqn:V; [|reflexivity].
    destruct Hc as [->|Hc]; [congruence|].
    cbn [bind ret]. rewrite IH; [reflexivity|]. exists c. auto.
Qed.

Lemma render_report_nan (candidates : list candidate) (c : candidate) :
  In c candidates -> c_vol c = NaN ->
  render_report candidates = (Raise ValueError, []).
Proof.
  intros Hc Hv. unfold render_report. apply render_loop_nan. exists c.
  split; [|exact Hv].
  apply (Permutation_in c (Permutation_sym (sorted_by_rank_perm candidates)) Hc).
Qed.

(** X4. When one candidate of a scan has no volume (its volume is NaN), the
    report is never sent: writing its row raises at the integer conversion
    of the volume, the run is aborted after the rows were scanned, and the
    one mail of the run is the crash notification carrying that fault.  The
    run still returns normally. *)
Theorem volume_less_candidate_aborts_report (cfg : Config) (w : World)
    (df : DataFrame) (cands : list candidate) (c : candidate) :
  fetch_coingecko_markets w = Ok (MarketList df) ->
  has_market_cap_rank (df_columns df) = true ->
  result (find_candidates cfg (ccxt w) df) = Ok cands ->
  In c cands -> c_vol c = NaN ->
  run_scan cfg w =
  (Ok tt,
   Log INFO (MsgStarting (RANK_MIN cfg) (RANK_MAX cfg))
   :: events (find_candidates cfg (ccxt w) df)
   ++ Log EXCEPTION (MsgScanAborted ValueError)
   :: events (send_email cfg w SubjError (BodyCrash ValueError)))
  /\ filter is_send (events (run_scan cfg w))
     = [SendEmail SubjError (BodyCrash ValueError)].
Proof.
  intros Hf Hcol Hres Hc Hv.
  assert (Hsel : rank_filter cfg (df_rows df) <> []).
  { intros E. rewrite (find_candidates_no_selection cfg (ccxt w) df E) in Hres.
    injection Hres as <-. destruct Hc. }
  assert (Hrows : df_rows df <> []).
  { intros E. apply Hsel. rewrite E. reflexivity. }
  pose proof (scan_body_selected cfg w df Hf Hrows Hcol Hsel) as Hb.
  cbn zeta in Hb.
  unfold find_candidates in Hres |- *. rewrite scan_rows_spec in Hres |- *.
  cbn [result events fst snd app] in Hres |- *. injection Hres as Hres.
  rewrite Hres in Hb.
  destruct cands as [|c0 cands']; [destruct Hc|].
  rewrite (send_report_fault cfg w (c0 :: cands') ValueError
             (render_report_nan (c0 :: cands') c Hc Hv)) in Hb.
  cbn [result events fst snd] in Hb. rewrite app_nil_r in Hb.
  assert (Hrun : run_scan cfg w =
    (Ok tt,
     Log INFO (MsgStarting (RANK_MIN cfg) (RANK_MAX cfg))
     :: flat_map (row_events cfg (ccxt w) (df_columns df)
                    (median_vol (selection cfg df))) (selection cfg df)
     ++ Log EXCEPTION (MsgScanAborted ValueError)
     :: events (send_email cfg w SubjError (BodyCrash ValueError)))).
  { rewrite (run_scan_handler cfg w ValueError _ Hb). reflexivity. }
  split; [exact Hrun|]. rewrite Hrun. cbn [events snd filter is_send].
  rewrite filter_app.
  pose proof (row_events_are_row_events cfg (ccxt w) (df_columns df)
                (median_vol (selection cfg df)) (selection cfg df)) as Hev.
  apply row_events_silent in Hev. destruct Hev as [-> _].
  cbn [app filter is_send]. apply send_email_sends.
Qed.

Lemma volume_less_candidate_aborts_report_witness :
  filter is_send
    (events
       (run_scan mail_config
          (quiet_world
             (Ok (MarketList
                    {| df_columns := all_columns;
                       df_rows := [sample_row (TStr "btc") 55 CNaN (Num 5) (Num 5);
                                   sample_row (TStr "eth") 60 (Num 10) (Num 0)
                                     (Num 0)] |})))))
  = [SendEmail SubjError (BodyCrash ValueError)].
Proof.
  apply (volume_less_candidate_aborts_report mail_config
           (quiet_world
              (Ok (MarketList
                     {| df_columns := all_columns;
                        df_rows := [sample_row (TStr "btc") 55 CNaN (Num 5) (Num 5);
                                    sample_row (TStr "eth") 60 (Num 10) (Num 0)
                                      (Num 0)] |})))
           {| df_columns := all_columns;
              df_rows := [sample_row (TStr "btc") 55 CNaN (Num 5) (Num 5);
                          sample_row (TStr "eth") 60 (Num 10) (Num 0) (Num 0)] |}
           [candidate_of mail_config all_columns (Fin 10)
              (derive all_columns (sample_row (TStr "btc") 55 CNaN (Num 5) (Num 5)))
              "BTC" 55 FNone]
           (candidate_of mail_config all_columns (Fin 10)
              (derive all_columns (sample_row (TStr "btc") 55 CNaN (Num 5) (Num 5)))
              "BTC" 55 FNone)
           eq_refl eq_refl eq_refl (or_introl eq_refl) eq_refl).
Defined.

(** ** What a candidate is *)

(** Every candidate of a scan is the record of lines 209-214 for a selected
    row whose symbol and rank could be read and which meets the quorum. *)
Lemma in_candidates (cfg : Config) (cc : option ccxt_module) (df : DataFrame)
    (cands : list candidate) (c : candidate) :
  result (find_candidates cfg cc df) = Ok cands -> In c cands ->
  exists r sym rk,
    In r (rank_filter cfg (df_rows df))
    /\ get_symbol (df_columns df) r = ret sym
    /\ get_rank (df_columns df) r = ret rk
    /\ (2 <= count_true
              [cond_1h cfg (derive (df_columns df) r);
               cond_24h cfg (derive (df_columns df) r);
               cond_vol cfg (median_vol (selection cfg df))
                 (derive (df_columns df) r)])%nat
    /\ c = candidate_of cfg (df_columns df) (median_vol (selection cfg df))
             (derive (df_columns df) r) sym rk (funding_of cc sym).
Proof.
  unfold find_candidates. rewrite scan_rows_spec. cbn [result fst app].
  intros H Hc. injection H as <-.
  apply in_flat_map in Hc. destruct Hc as (s & Hs & Hc).
  unfold selection in Hs. apply in_map_iff in Hs. destruct Hs as (r & <- & Hr).
  revert Hc. generalize (median_vol (selection cfg df)). intros median.
  unfold row_candidates.
  destruct (process_row_fault cfg cc (df_columns df) median
              (derive (df_columns df) r)) as [(sym & rk & Hsym & Hrk)|[e He]].
  - rewrite (process_row_eval cfg cc _ median _ sym rk Hsym Hrk).
    cbn [result fst]. destruct (2 <=? _)%nat eqn:Q; [|intros []].
    intros [<-|[]]. exists r, sym, rk. apply Nat.leb_le in Q.
    repeat split; assumption.
  - rewrite He. intros [].
Qed.

Lemma upper_ascii_idempotent (a : ascii) :
  upper_ascii (upper_ascii a) = upper_ascii a.
Proof.
  destruct a as [[] [] [] [] [] [] [] []]; reflexivity.
Qed.

Lemma upper_idempotent (s : string) : upper (upper s) = upper s.
Proof.
  induction s as [|a s IH]; [reflexivity|].
  cbn [upper]. rewrite upper_ascii_idempotent, IH. reflexivity.
Qed.

(** The reasons of lines 184-189: each one is there exactly when its
    condition holds, with the value and threshold it was tested on. *)
Lemma reasons_of_sound (cfg : Config) (median vol ch1 ch24 : pyfloat) :
  (forall v t, In (Reason1h v t) (reasons_of cfg median vol ch1 ch24) <->
     v = ch1 /\ t = MIN_1H_PCT cfg /\ f_ge ch1 (Fin (MIN_1H_PCT cfg)) = true)
  /\ (forall v t, In (Reason24h v t) (reasons_of cfg median vol ch1 ch24) <->
        v = ch24 /\ t = MIN_24H_PCT cfg
        /\ f_ge ch24 (Fin (MIN_24H_PCT cfg)) = true)
  /\ (forall v m, In (ReasonVol v m) (reasons_of cfg median vol ch1 ch24) <->
        v = vol /\ m = VOLUME_MULTIPLIER cfg
        /\ f_gt median (Fin 0) = true
        /\ f_ge vol (f_mul median (Fin (VOLUME_MULTIPLIER cfg))) = true).
Proof.
  unfold reasons_of.
  destruct (f_ge ch1 (Fin (MIN_1H_PCT cfg)));
    destruct (f_ge ch24 (Fin (MIN_24H_PCT cfg)));
    destruct (f_gt median (Fin 0));
    destruct (f_ge vol (f_mul median (Fin (VOLUME_MULTIPLIER cfg))));
    cbn; (split; [|split]); intros v t; (split; [intros H | intros H]);
    try (repeat (destruct H as [H|H];
                 [try discriminate H; inversion H; subst; auto |]);
         contradiction);
    try (decompose [and] H; subst; try discriminate;
         repeat (try (left; reflexivity); right)).
Qed.

Lemma count_true_le_length (l : list bool) : (count_true l <= List.length l)%nat.
Proof.
  unfold count_true. induction l as [|[] l IH]; cbn; lia.
Qed.

(** X5. Every candidate of a scan on a frame with ranks has its rank inside
    the window [RANK_MIN, RANK_MAX], an upper-case symbol, and two or three
    reasons; each reason it lists is true of the candidate's own values: a
    1h (24h) reason carries the reported 1h (24h) change and the configured
    threshold, which the change reaches, and a volume reason carries the
    reported volume, which reaches the positive median times the
    multiplier. *)
Theorem candidates_are_sound (cfg : Config) (cc : option ccxt_module)
    (df : DataFrame) (cands : list candidate) (c : candidate) :
  has_market_cap_rank (df_columns df) = true ->
  result (find_candidates cfg cc df) = Ok cands ->
  In c cands ->
  RANK_MIN cfg <= c_rank c <= RANK_MAX cfg
  /\ upper (c_symbol c) = c_symbol c
  /\ (2 <= List.length (c_reasons c) <= 3)%nat
  /\ (forall v t, In (Reason1h v t) (c_reasons c) ->
        v = c_1h c /\ t = MIN_1H_PCT cfg
        /\ f_ge (c_1h c) (Fin (MIN_1H_PCT cfg)) = true)
  /\ (forall v t, In (Reason24h v t) (c_reasons c) ->
        v = c_24h c /\ t = MIN_24H_PCT cfg
        /\ f_ge (c_24h c) (Fin (MIN_24H_PCT cfg)) = true)
  /\ (forall v m, In (ReasonVol v m) (c_reasons c) ->
        v = c_vol c /\ m = VOLUME_MULTIPLIER cfg
        /\ f_gt (median_vol (selection cfg df)) (Fin 0) = true
        /\ f_ge (c_vol c)
             (f_mul (median_vol (selection cfg df))
                (Fin (VOLUME_MULTIPLIER cfg))) = true).
Proof.
  intros Hcol Hres Hc.
  destruct (in_candidates cfg cc df cands c Hres Hc)
    as (r & sym & rk & Hr & Hsym & Hrk & Hq & ->).
  cbn [candidate_of c_rank c_symbol c_reasons c_1h c_24h c_vol].
  split; [|split; [|split]].
  - apply rank_filter_In in Hr. destruct Hr as [_ (z & Hz & Hw)].
    revert Hrk. unfold get_rank. rewrite Hcol, Hz. unfold ret.
    intros H. injection H as <-. exact Hw.
  - revert Hsym. unfold get_symbol. destruct (has_symbol (df_columns df)).
    + destruct (r_symbol r); try discriminate.
      unfold ret. intros H. injection H as <-. apply upper_idempotent.
    + unfold ret. intros H. injection H as <-. reflexivity.
  - rewrite reasons_of_length. split; [exact Hq|].
    apply (count_true_le_length [_; _; _]).
  - destruct (reasons_of_sound cfg (median_vol (selection cfg df))
                (float_or_0 (s_total_volume (derive (df_columns df) r)))
                (float_or_0 (price_change_1h (derive (df_columns df) r)))
                (float_or_0 (s_price_change_24h (derive (df_columns df) r))))
      as (H1 & H24 & Hv).
    split; [|split].
    + intros v t H. apply H1, H.
    + intros v t H. apply H24, H.
    + intros v m H. apply Hv, H.
Qed.

Lemma candidates_are_sound_witness :
  40 <= 55 <= 100
  /\ upper "BTC" = "BTC"%string.
Proof.
  destruct (candidates_are_sound default_config None
              {| df_columns := all_columns;
                 df_rows := [sample_row (TStr "btc") 55 (Num 200) (Num 5) (Num 5)] |}
              [candidate_of default_config all_columns (Fin 200)
                 (derive all_columns
                    (sample_row (TStr "btc") 55 (Num 200) (Num 5) (Num 5)))
                 "BTC" 55 FNone]
              (candidate_of default_config all_columns (Fin 200)
                 (derive all_columns
                    (sample_row (TStr "btc") 55 (Num 200) (Num 5) (Num 5)))
                 "BTC" 55 FNone)
              eq_refl eq_refl (or_introl eq_refl)) as (Hr & Hs & _).
  split; [exact Hr | exact Hs].
Defined.

(** ** Ties in the report order *)

Lemma insert_by_rank_stable (k : Z) (c : candidate) (l : list candidate) :
  filter (fun x => c_rank x =? k) (insert_by_rank c l)
  = filter (fun x => c_rank x =? k) (c :: l).
Proof.
  induction l as [|d l IH]; [reflexivity|].
  cbn [insert_by_rank]. destruct (c_rank c <=? c_rank d) eqn:E; [reflexivity|].
  apply Z.leb_gt in E. cbn [filter] in *. rewrite IH.
  destruct (c_rank c =? k) eqn:Ec; [|reflexivity].
  apply Z.eqb_eq in Ec.
  assert (Ed : (c_rank d =? k) = false) by (apply Z.eqb_neq; lia).
  rewrite Ed. reflexivity.
Qed.

(** X6. The sort of the report is stable: the candidates of any one rank
    stand in the report in the order in which the scan found them. *)
Theorem report_order_is_stable (k : Z) (candidates : list candidate) :
  filter (fun c => c_rank c =? k) (sorted_by_rank candidates)
  = filter (fun c => c_rank c =? k) candidates.
Proof.
  induction candidates as [|c l IH]; [reflexivity|].
  cbn [sorted_by_rank fold_right]. fold (sorted_by_rank l).
  rewrite insert_by_rank_stable. cbn [filter]. rewrite IH. reflexivity.
Qed.

(** ** A volume condition that is switched off *)

Lemma dropna_In (col : list cell) (q : Q) :
  In q (dropna col) -> In (Num q) col.
Proof.
  induction col as [|[x| |] col IH]; cbn; try tauto.
  intros [->|H]; auto.
Qed.

Lemma count_ge_witness (m : Q) (l : list Q) :
  (0 < count_ge m l)%nat -> exists y, In y l /\ (m <= y)%Q.
Proof.
  unfold count_ge. induction l as [|x l IH]; [cbn; lia|].
  cbn [filter]. destruct (Qle_bool m x) eqn:E.
  - intros _. exists x. split; [left; reflexivity | apply Qle_bool_iff, E].
  - intros H. destruct (IH H) as (y & Hy & Hm). exists y.
    split; [right; exact Hy | exact Hm].
Qed.

Lemma count_le_witness (m : Q) (l : list Q) :
  (0 < count_le m l)%nat -> exists x, In x l /\ (x <= m)%Q.
Proof.
  unfold count_le. induction l as [|x l IH]; [cbn; lia|].
  cbn [filter]. destruct (Qle_bool x m) eqn:E.
  - intros _. exists x. split; [left; reflexivity | apply Qle_bool_iff, E].
  - intros H. destruct (IH H) as (y & Hy & Hm). exists y.
    split; [right; exact Hy | exact Hm].
Qed.

(** The median of the selection is a number, and some present volume is at
    least as large unless no volume is present. *)
Lemma median_vol_bounds (sel : list srow) :
  exists m, median_vol sel = Fin m
    /\ (dropna (map s_total_volume sel) = [] -> m = 0%Q)
    /\ (dropna (map s_total_volume sel) <> [] ->
        (exists x, In (Num x) (map s_total_volume sel) /\ (x <= m)%Q)
        /\ (exists y, In (Num y) (map s_total_volume sel) /\ (m <= y)%Q)).
Proof.
  unfold median_vol.
  destruct (forallb isna (map s_total_volume sel)) eqn:E.
  - exists 0%Q. split; [reflexivity|]. split; [reflexivity|].
    apply dropna_nil in E. congruence.
  - assert (Hne : dropna (map s_total_volume sel) <> []).
    { intros H. apply dropna_nil in H. congruence. }
    destruct (series_median_is_median _ Hne) as (m & Hm & Hle & Hge).
    exists m. split; [exact Hm|]. split; [congruence|]. intros _.
    assert (Hpos : (0 < List.length (dropna (map s_total_volume sel)))%nat).
    { destruct (dropna (map s_total_volume sel)); [congruence | cbn; lia]. }
    assert (Hcl : (0 < count_le m (dropna (map s_total_volume sel)))%nat) by lia.
    assert (Hcg : (0 < count_ge m (dropna (map s_total_volume sel)))%nat) by lia.
    split.
    + destruct (count_le_witness m _ Hcl) as (x & Hx & Hxm).
      exists x. split; [apply dropna_In, Hx | exact Hxm].
    + destruct (count_ge_witness m _ Hcg) as (y & Hy & Hmy).
      exists y. split; [apply dropna_In, Hy | exact Hmy].
Qed.

(** X7. When no selected row has a positive volume (the frame has no volume
    column, or every volume is absent, zero or negative), the median is not
    positive and the volume condition is off for the whole scan: it holds
    for no row, and every candidate of the scan has exactly the 1h reason
    and the 24h reason. *)
Theorem volume_condition_off (cfg : Config) (cc : option ccxt_module)
    (df : DataFrame) :
  (forall r q, In r (rank_filter cfg (df_rows df)) ->
     col_total_volume (df_columns df) r = Num q -> (q <= 0)%Q) ->
  f_gt (median_vol (selection cfg df)) (Fin 0) = false
  /\ (forall s, cond_vol cfg (median_vol (selection cfg df)) s = false)
  /\ (forall cands c,
        result (find_candidates cfg cc df) = Ok cands -> In c cands ->
        c_reasons c = [Reason1h (c_1h c) (MIN_1H_PCT cfg);
                       Reason24h (c_24h c) (MIN_24H_PCT cfg)]).
Proof.
  intros Hvol.
  assert (Hoff : f_gt (median_vol (selection cfg df)) (Fin 0) = false).
  { destruct (median_vol_bounds (selection cfg df)) as (m & -> & H0 & Hb).
    cbn [f_gt].
    destruct (dropna (map s_total_volume (selection cfg df))) as [|x l] eqn:E.
    - rewrite (H0 eq_refl). reflexivity.
    - destruct Hb as [_ (y & Hy & Hmy)]; [discriminate|].
      unfold selection in Hy. rewrite map_map in Hy.
      apply in_map_iff in Hy. destruct Hy as (r & Hr & Hin).
      cbn [derive s_total_volume] in Hr.
      pose proof (Hvol r y Hin Hr) as Hy0.
      assert (Hm0 : (m <= 0)%Q) by (apply Qle_trans with y; assumption).
      apply Qle_bool_iff in Hm0. rewrite Hm0. reflexivity. }
  split; [exact Hoff|]. split.
  - intros s. unfold cond_vol. rewrite Hoff. reflexivity.
  - intros cands c Hres Hc.
    destruct (in_candidates cfg cc df cands c Hres Hc)
      as (r & sym & rk & _ & _ & _ & Hq & ->).
    cbn [candidate_of c_reasons c_1h c_24h].
    revert Hq. unfold cond_vol, cond_1h, cond_24h, reasons_of, count_true.
    rewrite Hoff. cbn [andb].
    destruct (f_ge (float_or_0 (price_change_1h (derive (df_columns df) r))) _);
      destruct (f_ge (float_or_0 (s_price_change_24h (derive (df_columns df) r))) _);
      cbn; try lia. reflexivity.
Qed.

Lemma volume_condition_off_witness :
  f_gt
    (median_vol
       (selection default_config
          {| df_columns := legacy_columns;
             df_rows := [sample_row (TStr "btc") 55 (Num 0) CNaN (Num 5)] |}))
    (Fin 0)
  = false.
Proof.
  apply (volume_condition_off default_config None
           {| df_columns := legacy_columns;
              df_rows := [sample_row (TStr "btc") 55 (Num 0) CNaN (Num 5)] |}).
  intros r q [<-|[]] H. injection H as <-. discriminate.
Defined.

(** ** Cells that are NaN *)

(** X8. A NaN cell is not turned into 0 by [float(x or 0)]: a row whose 1h
    change, 24h change or volume is NaN fails the corresponding condition
    for every threshold, also a zero or negative one, and a row whose two
    changes are NaN is never a candidate; whereas a cell that is None or 0
    is scored as 0 and meets the 1h (24h) condition exactly when the
    threshold is at most 0. *)
Theorem nan_fails_every_condition (cfg : Config) (median : pyfloat) (r : srow) :
  (price_change_1h r = CNaN -> cond_1h cfg r = false)
  /\ (s_price_change_24h r = CNaN -> cond_24h cfg r = false)
  /\ (s_total_volume r = CNaN -> cond_vol cfg median r = false)
  /\ (price_change_1h r = CNaN -> s_price_change_24h r = CNaN ->
      forall cc cols, row_candidates cfg cc cols median r = [])
  /\ (price_change_1h r = CNone \/ (exists q, price_change_1h r = Num q /\ q == 0) ->
      (cond_1h cfg r = true <-> (MIN_1H_PCT cfg <= 0)%Q))
  /\ (s_price_change_24h r = CNone
      \/ (exists q, s_price_change_24h r = Num q /\ q == 0) ->
      (cond_24h cfg r = true <-> (MIN_24H_PCT cfg <= 0)%Q)).
Proof.
  unfold cond_1h, cond_24h, cond_vol.
  split; [|split; [|split; [|split; [|split]]]].
  - intros ->. reflexivity.
  - intros ->. reflexivity.
  - intros ->. cbn. apply andb_false_r.
  - intros H1 H24 cc cols. unfold row_candidates.
    destruct (process_row_fault cfg cc cols median r)
      as [(sym & rk & Hs & Hr)|[e He]].
    + rewrite (process_row_eval cfg cc cols median r sym rk Hs Hr).
      unfold cond_1h, cond_24h, count_true. rewrite H1, H24. cbn.
      destruct (cond_vol cfg median r); reflexivity.
    + rewrite He. reflexivity.
  - intros [->|(q & -> & Hq)]; cbn.
    + apply Qle_bool_iff.
    + apply Qeq_bool_iff in Hq. rewrite Hq. cbn. apply Qle_bool_iff.
  - intros [->|(q & -> & Hq)]; cbn.
    + apply Qle_bool_iff.
    + apply Qeq_bool_iff in Hq. rewrite Hq. cbn. apply Qle_bool_iff.
Qed.

(** ** An inverted rank window *)

Lemma rank_filter_inverted (cfg : Config) (rows : list row) :
  RANK_MAX cfg < RANK_MIN cfg -> rank_filter cfg rows = [].
Proof.
  intros H. induction rows as [|r rows IH]; [reflexivity|].
  rewrite rank_filter_cons, IH.
  destruct (between _ _ (market_cap_rank r)) eqn:B; [|reflexivity].
  apply between_spec in B. destruct B as (z & _ & Hz). lia.
Qed.

(** X9. With RANK_MAX below RANK_MIN no record is ever selected: on any
    non-empty answer with ranks the run logs "no coins in the requested
    rank range" and ends, evaluating no row and sending nothing. *)
Theorem inverted_window_selects_nothing (cfg : Config) (w : World)
    (df : DataFrame) :
  RANK_MAX cfg < RANK_MIN cfg ->
  fetch_coingecko_markets w = Ok (MarketList df) ->
  df_rows df <> [] ->
  has_market_cap_rank (df_columns df) = true ->
  rank_filter cfg (df_rows df) = []
  /\ run_scan cfg w =
     (Ok tt, [Log INFO (MsgStarting (RANK_MIN cfg) (RANK_MAX cfg));
              Log INFO (MsgNoCoinsInRange (RANK_MIN cfg) (RANK_MAX cfg))]).
Proof.
  intros Hinv Hf Hrows Hcol.
  pose proof (rank_filter_inverted cfg (df_rows df) Hinv) as Hsel.
  split; [exact Hsel|].
  unfold run_scan, scan_body. rewrite Hf. cbn [lift bind logging emit].
  destruct (df_rows df) as [|r0 rows0] eqn:E; [congruence|].
  rewrite Hcol. rewrite Hsel. reflexivity.
Qed.

Lemma inverted_window_selects_nothing_witness :
  run_scan inverted_config
    (quiet_world
       (Ok (MarketList
              {| df_columns := all_columns;
                 df_rows := [sample_row (TStr "btc") 55 (Num 200) (Num 5)
                               (Num 5)] |})))
  = (Ok tt, [Log INFO (MsgStarting 100 40); Log INFO (MsgNoCoinsInRange 100 40)]).
Proof.
  apply (inverted_window_selects_nothing inverted_config
           (quiet_world
              (Ok (MarketList
                     {| df_columns := all_columns;
                        df_rows := [sample_row (TStr "btc") 55 (Num 200) (Num 5)
                                      (Num 5)] |})))
           {| df_columns := all_columns;
              df_rows := [sample_row (TStr "btc") 55 (Num 200) (Num 5) (Num 5)] |}).
  - reflexivity.
  - reflexivity.
  - discriminate.
  - reflexivity.
Defined.

(** ** The three funding methods *)

Lemma find_rate_first_match (symbol : string) (rates : list funding) :
  match find_rate symbol rates with
  | (Ok (FDict d), _) =>
      exists before after,
        rates = before ++ FDict d :: after
        /\ Forall (other_symbol symbol) before
        /\ dict_get d "symbol" = AStr symbol
  | (Ok FNone, _) => Forall (other_symbol symbol) rates
  | (Raise e, _) =>
      e = AttributeError
      /\ exists before after,
           rates = before ++ FNone :: after
           /\ Forall (other_symbol symbol) before
  end.
Proof.
  induction rates as [|[|d] rest IH]; cbn [find_rate].
  - cbn. constructor.
  - cbn. split; [reflexivity|]. exists [], rest. split; [reflexivity|constructor].
  - destruct (atom_is_str (dict_get d "symbol") symbol) eqn:E.
    + cbn. exists [], rest. split; [reflexivity|]. split; [constructor|].
      unfold atom_is_str in E. destruct (dict_get d "symbol"); try discriminate.
      apply String.eqb_eq in E. congruence.
    + assert (Hd : other_symbol symbol (FDict d)) by (exists d; auto).
      destruct (find_rate symbol rest) as [[[|d']|e] l].
      * constructor; assumption.
      * destruct IH as (before & after & -> & Hb & Hs).
        exists (FDict d :: before), after.
        split; [reflexivity|]. split; [constructor; assumption | exact Hs].
      * destruct IH as (-> & before & after & -> & Hb).
        split; [reflexivity|]. exists (FDict d :: before), after.
        split; [reflexivity | constructor; assumption].
Qed.

(** X10. The unified method [fetch_funding_rate] is preferred to
    [fetchFundingRate], and that to [fetchFundingRates]: the lookup returns
    what the first method the exchange has returns, and None when that
    method raises, when the exchange cannot be built, or when it has none of
    the three.  Through [fetchFundingRates] the lookup returns the first
    entry of the answer whose symbol is the requested one, None when no
    entry has it, and None when an entry read before is not a dict.  The
    lookup itself never raises. *)
Theorem funding_method_precedence (m : ccxt_module) (name s : string) :
  match m name with
  | Raise _ => result (try_fetch_funding_rate (Some m) name s) = Ok FNone
  | Ok x =>
      match fetch_funding_rate x, fetchFundingRate x, fetchFundingRates x with
      | Some f, _, _ | None, Some f, _ =>
          result (try_fetch_funding_rate (Some m) name s)
          = Ok (match f s with Ok v => v | Raise _ => FNone end)
      | None, None, Some f =>
          match f [s] with
          | Raise _ => result (try_fetch_funding_rate (Some m) name s) = Ok FNone
          | Ok rates =>
              match result (try_fetch_funding_rate (Some m) name s) with
              | Ok (FDict d) =>
                  exists before after,
                    rates = before ++ FDict d :: after
                    /\ Forall (other_symbol s) before
                    /\ dict_get d "symbol" = AStr s
              | Ok FNone =>
                  Forall (other_symbol s) rates
                  \/ exists before after,
                       rates = before ++ FNone :: after
                       /\ Forall (other_symbol s) before
              | Raise _ => False
              end
          end
      | None, None, None =>
          result (try_fetch_funding_rate (Some m) name s) = Ok FNone
      end
  end
  /\ exists v, result (try_fetch_funding_rate (Some m) name s) = Ok v.
Proof.
  split; [|apply try_fetch_funding_rate_spec].
  unfold try_fetch_funding_rate. cbn [bind emit lift].
  destruct (m name) as [x|e]; [|reflexivity]. cbn.
  destruct (fetch_funding_rate x) as [f|].
  { destruct (f s); reflexivity. }
  destruct (fetchFundingRate x) as [f|].
  { destruct (f s); reflexivity. }
  destruct (fetchFundingRates x) as [f|]; [|reflexivity].
  destruct (f [s]) as [rates|e]; [|reflexivity]. cbn.
  pose proof (find_rate_first_match s rates) as H.
  destruct (find_rate s rates) as [[[|d]|e] l]; cbn.
  - left. exact H.
  - exact H.
  - right. destruct H as (_ & before & after & H). exists before, after. exact H.
Qed.

(** ** The text of the funding column *)


(** ** The volume column *)

Lemma Zquot_bounds (n : Z) (d : positive) :
  (0 <= n -> Z.quot n (Zpos d) * Zpos d <= n < (Z.quot n (Zpos d) + 1) * Zpos d)
  /\ (n <= 0 -> (Z.quot n (Zpos d) - 1) * Zpos d < n <= Z.quot n (Zpos d) * Zpos d).
Proof.
  pose proof (Z.quot_rem' n (Zpos d)) as E.
  split; intros Hn.
  - pose proof (Z.rem_bound_pos n (Zpos d) Hn ltac:(lia)). lia.
  - pose proof (Z.rem_bound_pos_neg n (Zpos d) ltac:(lia) Hn). lia.
Qed.

(** X12. The volume column shows the volume with its fraction dropped: for a
    candidate whose volume is a number the row is written without fault and
    the integer shown is the volume rounded toward zero; for a non-negative
    volume it is the largest integer not above it. *)
Theorem report_volume_is_truncated (c : candidate) (q : Q) :
  c_vol c = Fin q ->
  exists tr,
    render_row c = (Ok tr, [])
    /\ td_rank tr = c_rank c
    /\ ((0 <= q)%Q ->
        (inject_Z (td_vol tr) <= q)%Q /\ (q < inject_Z (td_vol tr + 1))%Q)
    /\ ((q <= 0)%Q ->
        (inject_Z (td_vol tr - 1) < q)%Q /\ (q <= inject_Z (td_vol tr))%Q).
Proof.
  intros Hv. unfold render_row, int_of_float. rewrite Hv. cbn [bind ret].
  eexists. split; [reflexivity|]. cbn [td_rank td_vol]. split; [reflexivity|].
  destruct q as [n d]. unfold Qle, Qlt, inject_Z. cbn [Qnum Qden].
  destruct (Zquot_bounds n d) as [Hpos Hneg].
  split; intros H.
  - specialize (Hpos ltac:(lia)). lia.
  - specialize (Hneg ltac:(lia)). lia.
Qed.

Lemma report_volume_is_truncated_witness :
  exists tr,
    render_row sample_candidate = (Ok tr, []) /\ td_rank tr = 55.
Proof.
  destruct (report_volume_is_truncated sample_candidate 200 eq_refl)
    as (tr & Hr & Hk & _).
  exists tr. split; [exact Hr | exact Hk].
Defined.

(** ** The fetch *)

(** X13. A markets call makes exactly one GET, with a timeout of 30 and the
    query it was asked for, in descending market-cap order.  It pauses at
    most once, for API_RATE_LIMIT_SECONDS, and exactly when the request and
    the status check succeeded and the limit is positive: a failed request
    or an error status raises at once, with no pause, while a body that
    fails to parse raises after the pause.  A result is returned only from
    a response that passed the status check. *)
Theorem fetch_pauses_only_after_success (limit : Q)
    (get : string -> list (string * Fetcher.param) -> Z -> outcome Fetcher.response)
    (vs : string) (per_page page : Z) (pct : string) :
  snd (Fetcher.fetch_coingecko_markets limit get vs per_page page pct)
  = Fetcher.Get markets_url (markets_params vs per_page page pct) 30
    :: filter Fetcher.is_sleep
         (snd (Fetcher.fetch_coingecko_markets limit get vs per_page page pct))
  /\ (filter Fetcher.is_sleep
        (snd (Fetcher.fetch_coingecko_markets limit get vs per_page page pct))
      = [Fetcher.Sleep limit]
      <-> (exists resp,
             get markets_url (markets_params vs per_page page pct) 30 = Ok resp
             /\ Fetcher.raise_for_status resp = Ok tt)
          /\ (0 < limit)%Q)
  /\ (filter Fetcher.is_sleep
        (snd (Fetcher.fetch_coingecko_markets limit get vs per_page page pct))
      = []
      \/ filter Fetcher.is_sleep
           (snd (Fetcher.fetch_coingecko_markets limit get vs per_page page pct))
         = [Fetcher.Sleep limit])
  /\ (forall mk,
        fst (Fetcher.fetch_coingecko_markets limit get vs per_page page pct)
        = Ok mk ->
        exists resp,
          get markets_url (markets_params vs per_page page pct) 30 = Ok resp
          /\ Fetcher.raise_for_status resp = Ok tt
          /\ Fetcher.json resp = Ok mk)
  /\ (forall resp e,
        get markets_url (markets_params vs per_page page pct) 30 = Ok resp ->
        Fetcher.raise_for_status resp = Ok tt ->
        Fetcher.json resp = Raise e ->
        Fetcher.fetch_coingecko_markets limit get vs per_page page pct
        = (Raise e,
           Fetcher.Get markets_url (markets_params vs per_page page pct) 30
           :: Fetcher.rate_limit_sleep limit)).
Proof.
  unfold Fetcher.fetch_coingecko_markets.
  fold markets_url. fold (markets_params vs per_page page pct).
  assert (Hlim : Qle_bool limit 0 = false <-> (0 < limit)%Q).
  { split.
    - intros H. apply Qnot_le_lt. intros Hle. apply Qle_bool_iff in Hle.
      congruence.
    - apply Qle_bool_false_of_lt. }
  destruct (get markets_url (markets_params vs per_page page pct) 30)
    as [resp|e].
  2: { cbn. split; [reflexivity|]. split; [|split; [auto|split]].
       - split; [discriminate|]. intros [(resp & H & _) _]. discriminate.
       - discriminate.
       - discriminate. }
  destruct (Fetcher.raise_for_status resp) as [[]|e] eqn:S.
  2: { cbn. split; [reflexivity|]. split; [|split; [auto|split]].
       - split; [discriminate|]. intros [(resp' & H & H') _].
         injection H as <-. congruence.
       - discriminate.
       - intros resp' e' H. injection H as <-. congruence. }
  unfold Fetcher.rate_limit_sleep. cbn [fst snd].
  destruct (Qle_bool limit 0) eqn:L; cbn.
  - split; [reflexivity|]. split; [|split; [auto|split]].
    + split; [discriminate|]. intros [_ H]. apply Hlim in H. discriminate.
    + intros mk H. exists resp. auto.
    + intros resp' e H _ Hj. injection H as <-. rewrite Hj. reflexivity.
  - split; [reflexivity|]. split; [|split; [auto|split]].
    + split; [|reflexivity]. intros _. split; [eauto | apply Hlim; reflexivity].
    + intros mk H. exists resp. auto.
    + intros resp' e H _ Hj. injection H as <-. rewrite Hj. reflexivity.
Qed.

(** X14. A run whose request fails, or whose response has an error status,
    is aborted before any pause, any evaluation and any funding lookup: its
    only mail is the crash notification carrying that fault, and the run
    returns normally. *)
Theorem failed_fetch_notifies_without_pause (cfg : Config) (w : World)
    (limit : Q) (top_n : Z)
    (get : string -> list (string * Fetcher.param) -> Z -> outcome Fetcher.response)
    (e : exn) :
  fetch_coingecko_markets w = fst (Fetcher.scan_fetch limit top_n get) ->
  get markets_url (markets_params "usd" top_n 1 "1h,24h") 30 = Raise e
  \/ (exists resp,
        get markets_url (markets_params "usd" top_n 1 "1h,24h") 30 = Ok resp
        /\ Fetcher.raise_for_status resp = Raise e) ->
  filter Fetcher.is_sleep (snd (Fetcher.scan_fetch limit top_n get)) = []
  /\ filter is_send (events (run_scan cfg w))
     = [SendEmail SubjError (BodyCrash e)]
  /\ filter is_funding_call (events (run_scan cfg w)) = []
  /\ result (run_scan cfg w) = Ok tt.
Proof.
  intros Hw Hfail.
  assert (Hfetch : Fetcher.scan_fetch limit top_n get
                   = (Raise e, [Fetcher.Get markets_url
                                  (markets_params "usd" top_n 1 "1h,24h") 30])).
  { unfold Fetcher.scan_fetch, Fetcher.fetch_coingecko_markets.
    fold markets_url. fold (markets_params "usd" top_n 1 "1h,24h").
    destruct Hfail as [->|(resp & -> & ->)]; reflexivity. }
  rewrite Hfetch in Hw |- *. cbn [fst snd] in Hw |- *.
  split; [reflexivity|].
  assert (Hb : scan_body cfg w =
               (Raise e, [Log INFO (MsgStarting (RANK_MIN cfg) (RANK_MAX cfg))])).
  { unfold scan_body. rewrite Hw. reflexivity. }
  rewrite (run_scan_handler cfg w e _ Hb). cbn [events result fst snd app].
  split; [|split; [|reflexivity]].
  - cbn [filter is_send]. apply send_email_sends.
  - cbn [filter is_funding_call]. rewrite send_email_cases. cbn [MIMEText].
    destruct (is_empty (SMTP_USER cfg) || is_empty (SMTP_PASSWORD cfg)
              || is_empty (EMAIL_RECIPIENT cfg)); [reflexivity|].
    destruct (smtp_session cfg w SubjError (BodyCrash e)) as [[]|e'];
      [|reflexivity].
    destruct (srv_quit (smtp w)) as [[]|e']; reflexivity.
Qed.

Lemma failed_fetch_notifies_without_pause_witness :
  filter is_send
    (events
       (run_scan mail_config
          (quiet_world
             (fst (Fetcher.scan_fetch (6 # 10) 250
                     (constant_get
                        {| Fetcher.raise_for_status := Raise (HTTPError "429");
                           Fetcher.json := Ok NotAList |}))))))
  = [SendEmail SubjError (BodyCrash (HTTPError "429"))].
Proof.
  apply (failed_fetch_notifies_without_pause mail_config
           (quiet_world
              (fst (Fetcher.scan_fetch (6 # 10) 250
                      (constant_get
                         {| Fetcher.raise_for_status := Raise (HTTPError "429");
                            Fetcher.json := Ok NotAList |}))))
           (6 # 10) 250
           (constant_get
              {| Fetcher.raise_for_status := Raise (HTTPError "429");
                 Fetcher.json := Ok NotAList |})
           (HTTPError "429") eq_refl).
  right. eexists. split; reflexivity.
Defined.

(** ** Order and number of the candidates *)

Lemma row_candidates_rank (cfg : Config) (cc : option ccxt_module)
    (cols : columns) (median : pyfloat) (r : row) :
  has_market_cap_rank cols = true ->
  row_candidates cfg cc cols median (derive cols r) = []
  \/ exists c, row_candidates cfg cc cols median (derive cols r) = [c]
               /\ market_cap_rank r = Some (c_rank c).
Proof.
  intros Hcol. unfold row_candidates.
  destruct (process_row_fault cfg cc cols median (derive cols r))
    as [(sym & rk & Hs & Hr)|[e He]].
  - rewrite (process_row_eval cfg cc cols median _ sym rk Hs Hr).
    cbn [result fst]. destruct (2 <=? _)%nat; [|left; reflexivity].
    right. eexists. split; [reflexivity|]. cbn [candidate_of c_rank].
    revert Hr. unfold get_rank. cbn [derive s_base]. rewrite Hcol.
    destruct (market_cap_rank r); [|discriminate].
    unfold ret. congruence.
  - rewrite He. left. reflexivity.
Qed.

(** X15. The scan finds its candidates in frame order, at most one for each
    selected row: the ranks of the candidates, in the order found, are the
    ranks of the selected rows with some rows left out. *)
Theorem candidates_follow_frame_order (cfg : Config) (cc : option ccxt_module)
    (df : DataFrame) (cands : list candidate) :
  has_market_cap_rank (df_columns df) = true ->
  result (find_candidates cfg cc df) = Ok cands ->
  subseq (map (fun c => Some (c_rank c)) cands)
         (map market_cap_rank (rank_filter cfg (df_rows df)))
  /\ (List.length cands <= List.length (rank_filter cfg (df_rows df)))%nat.
Proof.
  intros Hcol. unfold find_candidates. rewrite scan_rows_spec.
  cbn [result fst app]. intros H. injection H as <-.
  unfold selection. generalize (median_vol (map (derive (df_columns df))
                                              (rank_filter cfg (df_rows df)))).
  intros median.
  induction (rank_filter cfg (df_rows df)) as [|r rows [IH1 IH2]].
  - split; [constructor | reflexivity].
  - cbn [map flat_map]. rewrite map_app, length_app.
    destruct (row_candidates_rank cfg cc (df_columns df) median r Hcol)
      as [->|(c & -> & ->)]; cbn [map app List.length].
    + split; [constructor; exact IH1 | lia].
    + split; [constructor; exact IH1 | lia].
Qed.

Lemma candidates_follow_frame_order_witness :
  subseq
    (map (fun c => Some (c_rank c))
       [candidate_of default_config all_columns (Fin 200)
          (derive all_columns
             (sample_row (TStr "btc") 55 (Num 200) (Num 5) (Num 5)))
          "BTC" 55 FNone])
    (map market_cap_rank
       (rank_filter default_config
          [sample_row (TStr "btc") 55 (Num 200) (Num 5) (Num 5)])).
Proof.
  apply (candidates_follow_frame_order default_config None
           {| df_columns := all_columns;
              df_rows := [sample_row (TStr "btc") 55 (Num 200) (Num 5) (Num 5)] |}
           _ eq_refl eq_refl).
Defined.

(** ** Rows without a symbol *)

(** X16. On a frame without a symbol column every row has the empty symbol:
    no funding lookup is made during the scan, also when ccxt is there, and
    every candidate has the empty symbol and no funding data. *)
Theorem no_symbol_no_lookup (cfg : Config) (cc : option ccxt_module)
    (df : DataFrame) :
  has_symbol (df_columns df) = false ->
  filter is_funding_call (events (find_candidates cfg cc df)) = []
  /\ (forall cands c,
        result (find_candidates cfg cc df) = Ok cands -> In c cands ->
        c_symbol c = EmptyString /\ c_funding c = FNone).
Proof.
  intros Hsym. split.
  - unfold find_candidates. rewrite scan_rows_spec. cbn [events snd].
    rewrite row_events_calls.
    induction (selection cfg df) as [|s sel IH]; [reflexivity|].
    cbn [flat_map]. rewrite map_app, IH, app_nil_r.
    unfold row_lookups, get_symbol. rewrite Hsym. cbn [result ret fst upper].
    destruct cc; [|reflexivity].
    destruct (result (get_rank (df_columns df) (s_base s))); reflexivity.
  - intros cands c Hres Hc.
    destruct (in_candidates cfg cc df cands c Hres Hc)
      as (r & sym & rk & _ & Hs & _ & _ & ->).
    cbn [candidate_of c_symbol c_funding].
    revert Hs. unfold get_symbol. rewrite Hsym. unfold ret. cbn [upper].
    intros H. injection H as <-. split; [reflexivity|].
    unfold funding_of. destruct cc; reflexivity.
Qed.

Lemma no_symbol_no_lookup_witness :
  filter is_funding_call
    (events
       (find_candidates default_config (Some sample_ccxt)
          {| df_columns :=
               {| has_id := true; has_symbol := false; has_name := true;
                  has_market_cap_rank := true; has_current_price := true;
                  has_total_volume := true; has_1h_in_currency := true;
                  has_pct_24h := true; has_24h_in_currency := true;
                  has_price_change_24h := true |};
             df_rows := [sample_row TNone 55 (Num 200) (Num 5) (Num 5)] |}))
  = [].
Proof.
  apply (no_symbol_no_lookup default_config (Some sample_ccxt)
           {| df_columns :=
                {| has_id := true; has_symbol := false; has_name := true;
                   has_market_cap_rank := true; has_current_price := true;
                   has_total_volume := true; has_1h_in_currency := true;
                   has_pct_24h := true; has_24h_in_currency := true;
                   has_price_change_24h := true |};
              df_rows := [sample_row TNone 55 (Num 200) (Num 5) (Num 5)] |}
           eq_refl).
Defined.

(** ** A run that finds candidates *)

Lemma send_email_no_abort (cfg : Config) (w : World) (s : subject) (b : body)
    (e : exn) :
  ~ In (Log EXCEPTION (MsgScanAborted e)) (events (send_email cfg w s b)).
Proof.
  rewrite send_email_cases.
  destruct (is_empty (SMTP_USER cfg) || is_empty (SMTP_PASSWORD cfg)
            || is_empty (EMAIL_RECIPIENT cfg)); cbn.
  { intros [H|[H|[]]]; discriminate. }
  destruct (MIMEText w b) as [[]|e0]; cbn.
  2: { intros [H|[]]; discriminate. }
  destruct (smtp_session cfg w s b) as [[]|e1]; cbn.
  2: { intros [H|[H|[]]]; discriminate. }
  destruct (srv_quit (smtp w)) as [[]|e2]; cbn;
    intros [H|[H|[H|[]]]]; discriminate.
Qed.

(** X17. A run that finds at least one candidate, all with a volume, and
    whose report can be encoded, sends exactly one mail, the report: its
    subject carries the number of candidates, its body has one row per
    candidate in rank order, and the run is not aborted, whether or not the
    SMTP dialogue succeeds. *)
Theorem run_with_candidates_sends_report (cfg : Config) (w : World)
    (df : DataFrame) (cands : list candidate) :
  fetch_coingecko_markets w = Ok (MarketList df) ->
  has_market_cap_rank (df_columns df) = true ->
  result (find_candidates cfg (ccxt w) df) = Ok cands ->
  cands <> [] ->
  (forall c, In c cands -> c_vol c <> NaN) ->
  (forall rows, result (render_report cands) = Ok rows ->
     mime_text w rows = Ok tt) ->
  exists rows,
    result (render_report cands) = Ok rows
    /\ List.length rows = List.length cands
    /\ map td_rank rows = map c_rank (sorted_by_rank cands)
    /\ filter is_send (events (run_scan cfg w))
       = [SendEmail (SubjCandidates (List.length cands))
            (BodyReport (RANK_MIN cfg) (RANK_MAX cfg) (List.length cands) rows)]
    /\ (forall e, ~ In (Log EXCEPTION (MsgScanAborted e))
                       (events (run_scan cfg w)))
    /\ result (run_scan cfg w) = Ok tt.
Proof.
  intros Hf Hcol Hres Hne Hvol Hmime.
  assert (Hsel : rank_filter cfg (df_rows df) <> []).
  { intros E. rewrite (find_candidates_no_selection cfg (ccxt w) df E) in Hres.
    injection Hres as <-. congruence. }
  assert (Hrows : df_rows df <> []).
  { intros E. apply Hsel. rewrite E. reflexivity. }
  pose proof (scan_body_selected cfg w df Hf Hrows Hcol Hsel) as Hb.
  cbn zeta in Hb.
  unfold find_candidates in Hres. rewrite scan_rows_spec in Hres.
  cbn [result fst app] in Hres. injection Hres as Hres. rewrite Hres in Hb.
  destruct (render_report_cases cands)
    as [(rows & Hr & Hlen & Hranks)|(_ & c & Hc & Hv)];
    [|exfalso; exact (Hvol c Hc Hv)].
  assert (Hm : MIMEText w (report_body cfg cands rows) = Ok tt).
  { apply Hmime. rewrite Hr. reflexivity. }
  exists rows. rewrite Hr. split; [reflexivity|]. split; [exact Hlen|].
  split; [exact Hranks|].
  destruct cands as [|c0 cands']; [congruence|].
  rewrite (send_report_rendered cfg w (c0 :: cands') rows Hr) in Hb.
  destruct (send_email_spec cfg w (report_subject (c0 :: cands'))
              (report_body cfg (c0 :: cands') rows) Hm)
    as (ok & info & l & Hsend & _).
  pose proof (send_email_sends cfg w (report_subject (c0 :: cands'))
                (report_body cfg (c0 :: cands') rows)) as Hone.
  pose proof (fun e => send_email_no_abort cfg w (report_subject (c0 :: cands'))
                (report_body cfg (c0 :: cands') rows) e) as Hna.
  rewrite Hsend in Hb, Hone, Hna. cbn [result events fst snd] in Hb, Hone, Hna.
  pose proof (row_events_are_row_events cfg (ccxt w) (df_columns df)
                (median_vol (selection cfg df)) (selection cfg df)) as Hev.
  apply row_events_silent in Hev. destruct Hev as [Hnosend Habort].
  unfold run_scan. rewrite Hb. cbn [try_except events result fst snd].
  split; [|split; [|reflexivity]].
  - cbn [filter is_send]. rewrite !filter_app, Hnosend, Hone.
    unfold delivery_line. cbn [fst snd]. destruct ok; reflexivity.
  - intros e [H|H]; [discriminate|].
    apply in_app_or in H. destruct H as [H|H]; [exact (Habort e H)|].
    apply in_app_or in H. destruct H as [H|[H|[]]].
    + exact (Hna e H).
    + unfold delivery_line in H. cbn [fst snd] in H.
      destruct ok; discriminate.
Qed.

Lemma run_with_candidates_sends_report_witness :
  exists rows,
    filter is_send
      (events
         (run_scan mail_config
            (quiet_world
               (Ok (MarketList
                      {| df_columns := all_columns;
                         df_rows := [sample_row (TStr "btc") 55 (Num 200)
                                       (Num 5) (Num 5)] |})))))
    = [SendEmail (SubjCandidates 1) (BodyReport 40 100 1 rows)].
Proof.
  destruct (run_with_candidates_sends_report mail_config
              (quiet_world
                 (Ok (MarketList
                        {| df_columns := all_columns;
                           df_rows := [sample_row (TStr "btc") 55 (Num 200)
                                         (Num 5) (Num 5)] |})))
              {| df_columns := all_columns;
                 df_rows := [sample_row (TStr "btc") 55 (Num 200) (Num 5) (Num 5)] |}
              [candidate_of mail_config all_columns (Fin 200)
                 (derive all_columns
                    (sample_row (TStr "btc") 55 (Num 200) (Num 5) (Num 5)))
                 "BTC" 55 FNone]
              eq_refl eq_refl eq_refl)
    as (rows & _ & _ & _ & Hsend & _).
  - discriminate.
  - intros c [<-|[]]. discriminate.
  - intros rows _. reflexivity.
  - exists rows. exact Hsend.
Defined.

(** ** Notifications of a run *)

Lemma row_events_undelivered (l : list event) :
  forallb is_row_event l = true -> filter is_delivered l = [].
Proof.
  induction l as [|ev l IH]; [reflexivity|].
  cbn [forallb]. intros H. apply andb_true_iff in H. destruct H as [Hev Hl].
  cbn [filter]. rewrite (IH Hl). destruct ev; try discriminate; reflexivity.
Qed.

(** The body calls [send_email] at most once; when it raises, nothing was
    handed over, and a call it made was for a report that could not be
    encoded. *)
Lemma scan_body_sends (cfg : Config) (w : World) :
  match scan_body cfg w with
  | (Ok _, l) =>
      (List.length (filter is_send l) <= 1)%nat
      /\ (List.length (filter is_delivered l) <= 1)%nat
  | (Raise e, l) =>
      filter is_delivered l = []
      /\ (filter is_send l = []
          \/ exists cands rows,
               filter is_send l
               = [SendEmail (report_subject cands) (report_body cfg cands rows)]
               /\ configured cfg = true
               /\ mime_text w rows = Raise e)
  end.
Proof.
  destruct (fetch_coingecko_markets w) as [[|df]|e] eqn:Hf.
  - unfold scan_body. rewrite Hf. cbn. lia.
  - destruct (df_rows df) as [|r0 rows0] eqn:E.
    { unfold scan_body. rewrite Hf. cbn [lift bind logging emit]. rewrite E.
      cbn. lia. }
    destruct (has_market_cap_rank (df_columns df)) eqn:C.
    2: { unfold scan_body. rewrite Hf. cbn [lift bind logging emit].
         rewrite E, C. cbn. lia. }
    destruct (rank_filter cfg (df_rows df)) as [|s0 sel0] eqn:F.
    { unfold scan_body. rewrite Hf. cbn [lift bind logging emit].
      rewrite E, C. rewrite <- E, F. cbn. lia. }
    assert (Hrows : df_rows df <> []) by (rewrite E; discriminate).
    assert (Hsel : rank_filter cfg (df_rows df) <> []) by (rewrite F; discriminate).
    rewrite (scan_body_selected cfg w df Hf Hrows C Hsel). cbn zeta.
    pose proof (row_events_are_row_events cfg (ccxt w) (df_columns df)
                  (median_vol (selection cfg df)) (selection cfg df)) as Hev.
    pose proof (row_events_undelivered _ Hev) as Hdel.
    apply row_events_silent in Hev. destruct Hev as [Hev _].
    destruct (flat_map (row_candidates cfg (ccxt w) (df_columns df)
                          (median_vol (selection cfg df))) (selection cfg df))
      as [|c cands] eqn:Hc.
    + cbn [result events fst snd logging emit filter is_send is_delivered].
      rewrite !filter_app, Hev, Hdel. cbn. lia.
    + destruct (render_report_cases (c :: cands))
        as [(rows & Hr & _)|(Hr & _)].
      * rewrite (send_report_rendered cfg w (c :: cands) rows Hr).
        rewrite send_email_cases. unfold configured.
        change (MIMEText w (report_body cfg (c :: cands) rows))
          with (mime_text w rows).
        destruct (is_empty (SMTP_USER cfg) || is_empty (SMTP_PASSWORD cfg)
                  || is_empty (EMAIL_RECIPIENT cfg)).
        { cbn [result events fst snd filter is_send is_delivered].
          rewrite !filter_app, Hev, Hdel. cbn. lia. }
        destruct (mime_text w rows) as [[]|e0] eqn:Hm.
        2: { cbn [result events fst snd filter is_send is_delivered].
             rewrite !filter_app, Hev, Hdel. cbn. split; [reflexivity|].
             right. exists (c :: cands), rows. auto. }
        destruct (smtp_session cfg w (report_subject (c :: cands))
                    (report_body cfg (c :: cands) rows)) as [[]|e1].
        2: { cbn [result events fst snd filter is_send is_delivered].
             rewrite !filter_app, Hev, Hdel. cbn. lia. }
        destruct (srv_quit (smtp w)) as [[]|e2];
          cbn [result events fst snd filter is_send is_delivered];
          rewrite !filter_app, Hev, Hdel; cbn; lia.
      * rewrite (send_report_fault cfg w (c :: cands) ValueError Hr).
        cbn [result events fst snd filter is_send is_delivered].
        rewrite !filter_app, Hev, Hdel. cbn. auto.
  - unfold scan_body. rewrite Hf. cbn. auto.
Qed.

(** X3. A run hands at most one mail to the server, and calls [send_email]
    at most twice.  It calls it twice only when the account is configured
    and the report cannot be encoded: building the report mail raises, the
    run is aborted and the crash notification follows. *)
Theorem at_most_one_mail_delivered (cfg : Config) (w : World) :
  (List.length (filter is_delivered (events (run_scan cfg w))) <= 1)%nat
  /\ (List.length (filter is_send (events (run_scan cfg w))) <= 2)%nat
  /\ (List.length (filter is_send (events (run_scan cfg w))) = 2%nat ->
      exists cands rows e,
        filter is_send (events (run_scan cfg w))
        = [SendEmail (report_subject cands) (report_body cfg cands rows);
           SendEmail SubjError (BodyCrash e)]
        /\ configured cfg = true
        /\ mime_text w rows = Raise e).
Proof.
  pose proof (scan_body_sends cfg w) as Hb.
  destruct (scan_body cfg w) as [[[]|e] l] eqn:E.
  - unfold run_scan. rewrite E. cbn [try_except events snd].
    destruct Hb as [Hs Hd]. split; [exact Hd|]. split; [lia|]. lia.
  - rewrite (run_scan_handler cfg w e l E). cbn [events snd].
    destruct Hb as [Hd Hs].
    destruct (send_email_delivers cfg w SubjError (BodyCrash e)) as [Hcrash _].
    rewrite !filter_app. cbn [filter is_send is_delivered].
    rewrite Hd, send_email_sends. cbn [app].
    split; [exact Hcrash|].
    destruct Hs as [->|(cands & rows & -> & Hc & Hm)].
    + cbn. split; [lia|]. lia.
    + cbn. split; [lia|]. intros _. exists cands, rows, e. auto.
Qed.

(** A report that cannot be encoded: the run calls [send_email] twice and
    hands over the crash notification only. *)
Lemma unencodable_report_sends_two_mails :
  map is_send
    (events
       (run_scan mail_config
          {| fetch_coingecko_markets :=
               Ok (MarketList
                     {| df_columns := all_columns;
                        df_rows := [sample_row (TStr "btc") 55 (Num 200)
                                      (Num 5) (Num 5)] |});
             ccxt := None;
             mime_text := fun _ => Raise UnicodeEncodeError;
             smtp := accepting_server |}))
  = [false; true; false; true; false; false]
  /\ List.length
       (filter is_delivered
          (events
             (run_scan mail_config
                {| fetch_coingecko_markets :=
                     Ok (MarketList
                           {| df_columns := all_columns;
                              df_rows := [sample_row (TStr "btc") 55 (Num 200)
                                            (Num 5) (Num 5)] |});
                   ccxt := None;
                   mime_text := fun _ => Raise UnicodeEncodeError;
                   smtp := accepting_server |})))
     = 1%nat.
Proof.
  split; reflexivity.
Qed.
